(** * MAX17048 fuel-gauge driver (hackberrypi-max17048.c)

    A shallow embedding of the driver's register conversions, status
    classification, derived estimates, property dispatch, design-capacity
    configuration and notification handlers, followed by the properties
    established about them.

    C integers are modelled as [Z] with the conversions of the C code
    written out ([to_u32], [to_int], [to_s16], [to_s64]).  A function
    that returns a status code and writes through an out-pointer returns
    the pair (status, new value of the pointee).  The I2C register map is
    an oracle indexed by the number of reads performed so far, so two reads
    of one register need not agree (the chip runs between reads). *)

From Stdlib Require Import ZArith Lia List String Bool.
Import ListNotations.
Local Open Scope Z_scope.

(** ** Machine integers *)

Module CInt.

(** Conversion to [u32]: reduction modulo 2^32. *)
Definition to_u32 (z : Z) : Z := z mod 4294967296.

(** Conversion to [int] (32-bit two's complement). *)
Definition to_int (z : Z) : Z :=
  let r := z mod 4294967296 in
  if r <? 2147483648 then r else r - 4294967296.

(** Conversion to [int16_t]: the low 16 bits, sign-extended. *)
Definition to_s16 (z : Z) : Z :=
  let r := z mod 65536 in
  if r <? 32768 then r else r - 65536.

(** Conversion to [s64] (64-bit two's complement). *)
Definition to_s64 (z : Z) : Z :=
  let r := z mod 18446744073709551616 in
  if r <? 9223372036854775808 then r else r - 18446744073709551616.

(** Conversion to [u64]. *)
Definition to_u64 (z : Z) : Z := z mod 18446744073709551616.

(** [div_s64]: signed 64-bit division, truncating toward zero. *)
Definition div_s64 (dividend divisor : Z) : Z :=
  to_s64 (Z.quot dividend divisor).

(** [div_u64]: unsigned 64-bit by 32-bit division. *)
Definition div_u64 (dividend divisor : Z) : Z := dividend / divisor.

(** The kernel's [abs] on a [short] argument: computed in [int]. *)
Definition abs (x : Z) : Z := if x <? 0 then to_int (- x) else x.

(** C truth value of an integer condition. *)
Definition nonzero (z : Z) : bool := negb (z =? 0).

End CInt.
Import CInt.

(** ** Register map *)

Definition MAX17048_VCELL_REG : Z := 2.
Definition MAX17048_SOC_REG : Z := 4.
Definition MAX17048_CONFIG_REG : Z := 12.
Definition MAX17048_VALRT_REG : Z := 20.
Definition MAX17048_CRATE_REG : Z := 22.
Definition MAX17048_STATUS_REG : Z := 26.

(** ** Conversion constants and thresholds *)

Definition MAX17048_VCELL_LSB_NUM : Z := 625.
Definition MAX17048_VCELL_LSB_DEN : Z := 8.
Definition MAX17048_SOC_LSB_INV : Z := 256.
Definition MAX17048_CRATE_LSB_NUM : Z := 52.
Definition MAX17048_CRATE_LSB_DEN : Z := 25000.
Definition MAX17048_CRATE_NOISE_THR : Z := 4.
Definition MAX17048_FULL_SOC_THR : Z := 95.
Definition MAX17048_TTE_CONST_NUM : Z := 225000.
Definition MAX17048_TTE_CONST_DEN : Z := 13.
Definition MAX17048_TTE_RATE_THR : Z := 10.
Definition MAX17048_CAP_FULL_THR : Z := 99.
Definition MAX17048_CAP_CRIT_THR : Z := 5.
Definition MAX17048_CAP_LOW_THR : Z := 15.
Definition MAX17048_DEFAULT_CAP_UAH : Z := 5000000.
Definition MAX17048_MAX_CAP_UAH : Z := 10000000.
Definition MAX17048_MAX_ENERGY_UWH : Z := 18500000.
Definition MAX17048_TTE_TUNING_FACTOR : Z := 8.

(** ** Transport

    What one access answers: a value, or a failure with an errno.  The
    kernel call then returns the negated errno ([max17048_read_reg]:
    "Returns value on success, negative error code on failure"). *)
Inductive io_result : Type :=
| IoOk (value : Z)
| IoErr (errno : positive).

(** [struct regmap]: the number of reads done so far and, for each read
    number and register address, what the chip answers. *)
Record struct_regmap : Type := {
  reads : nat;
  chip : nat -> Z -> io_result
}.

(** [regmap_read(map, reg, &val)]: returns the status and the pointee,
    which is written on success only. *)
Definition regmap_read (map : struct_regmap) (reg val : Z)
  : (Z * Z) * struct_regmap :=
  let map' := {| reads := S (reads map); chip := chip map |} in
  match chip map (reads map) reg with
  | IoOk v => ((0, v), map')
  | IoErr e => ((Z.neg e, val), map')
  end.

(** [struct max17048], without the kernel object pointers. *)
Record max17048 : Type := {
  regmap : struct_regmap;
  charge_full_design_uah : Z;
  energy_full_design_uwh : Z;
  delay : Z
}.

Definition set_regmap (battery : max17048) (map : struct_regmap) : max17048 :=
  {| regmap := map;
     charge_full_design_uah := charge_full_design_uah battery;
     energy_full_design_uwh := energy_full_design_uwh battery;
     delay := delay battery |}.

(** The answer the [k]-th next register read gets if it addresses [reg]. *)
Definition answer (battery : max17048) (k : nat) (reg : Z) : io_result :=
  chip (regmap battery) (k + reads (regmap battery))%nat reg.

(** The driver data after [k] more register reads. *)
Definition after_reads (k : nat) (battery : max17048) : max17048 :=
  set_regmap battery
    {| reads := (k + reads (regmap battery))%nat;
       chip := chip (regmap battery) |}.

(** ** Computations on the driver data *)

Definition M (A : Type) : Type := max17048 -> A * max17048.

Definition Ret {A : Type} (a : A) : M A := fun battery => (a, battery).

Definition bind {A B : Type} (c : M A) (k : A -> M B) : M B :=
  fun battery => let (a, battery') := c battery in k a battery'.

Declare Scope drv_scope.
Delimit Scope drv_scope with drv.
Notation "x <- c ;; k" := (bind c (fun x => k))
  (at level 61, c at next level, right associativity) : drv_scope.
Notation "' p <- c ;; k" := (bind c (fun x => match x with p => k end))
  (at level 61, p pattern, c at next level, right associativity) : drv_scope.
Local Open Scope drv_scope.

(** [max17048_read_reg]: read a 16-bit register. *)
Definition max17048_read_reg (reg val : Z) : M (Z * Z) :=
  fun battery =>
    let (r, map') := regmap_read (regmap battery) reg val in
    (r, set_regmap battery map').

(** [max17048_get_vcell]: battery voltage in microvolts, or an error code. *)
Definition max17048_get_vcell : M Z :=
  '(ret, vcell) <- max17048_read_reg MAX17048_VCELL_REG 0 ;;
  if nonzero ret then Ret ret
  else
    Ret (to_int (to_u32 (vcell * MAX17048_VCELL_LSB_NUM) / MAX17048_VCELL_LSB_DEN)).

(** [max17048_get_soc]: state of charge in percent, or an error code. *)
Definition max17048_get_soc : M Z :=
  '(ret, soc) <- max17048_read_reg MAX17048_SOC_REG 0 ;;
  if nonzero ret then Ret ret
  else
    let soc := soc / MAX17048_SOC_LSB_INV in
    let soc := if soc >? 100 then 100 else soc in
    Ret (to_int soc).

(** [max17048_get_crate]: status and the sign-extended C-rate. *)
Definition max17048_get_crate (crate : Z) : M (Z * Z) :=
  '(ret, crate_raw) <- max17048_read_reg MAX17048_CRATE_REG 0 ;;
  if nonzero ret then Ret (ret, crate)
  else Ret (0, to_s16 crate_raw).

(** [max17048_get_current]: battery current in microamps. *)
Definition max17048_get_current (val : Z) : M (Z * Z) :=
  '(ret, crate) <- max17048_get_crate 0 ;;
  if nonzero ret then Ret (ret, val)
  else
    fun battery =>
      ((0, to_int (div_s64
                     (to_s64 (to_s64 (charge_full_design_uah battery * crate)
                              * MAX17048_CRATE_LSB_NUM))
                     MAX17048_CRATE_LSB_DEN)),
       battery).

(** [enum] of the power-supply status values the driver uses. *)
Inductive power_supply_status : Type :=
| POWER_SUPPLY_STATUS_UNKNOWN
| POWER_SUPPLY_STATUS_CHARGING
| POWER_SUPPLY_STATUS_DISCHARGING
| POWER_SUPPLY_STATUS_NOT_CHARGING
| POWER_SUPPLY_STATUS_FULL.

Definition status_eqb (a b : power_supply_status) : bool :=
  match a, b with
  | POWER_SUPPLY_STATUS_UNKNOWN, POWER_SUPPLY_STATUS_UNKNOWN
  | POWER_SUPPLY_STATUS_CHARGING, POWER_SUPPLY_STATUS_CHARGING
  | POWER_SUPPLY_STATUS_DISCHARGING, POWER_SUPPLY_STATUS_DISCHARGING
  | POWER_SUPPLY_STATUS_NOT_CHARGING, POWER_SUPPLY_STATUS_NOT_CHARGING
  | POWER_SUPPLY_STATUS_FULL, POWER_SUPPLY_STATUS_FULL => true
  | _, _ => false
  end.

(** [max17048_get_status]: battery charging status. *)
Definition max17048_get_status : M power_supply_status :=
  '(ret, crate) <- max17048_get_crate 0 ;;
  if nonzero ret then Ret POWER_SUPPLY_STATUS_UNKNOWN
  else if crate >? MAX17048_CRATE_NOISE_THR then Ret POWER_SUPPLY_STATUS_CHARGING
  else if crate <? - MAX17048_CRATE_NOISE_THR then Ret POWER_SUPPLY_STATUS_DISCHARGING
  else
    soc <- max17048_get_soc ;;
    if soc >=? MAX17048_FULL_SOC_THR then Ret POWER_SUPPLY_STATUS_FULL
    else Ret POWER_SUPPLY_STATUS_NOT_CHARGING.

(** [enum] of the capacity levels the driver uses. *)
Inductive power_supply_capacity_level : Type :=
| POWER_SUPPLY_CAPACITY_LEVEL_UNKNOWN
| POWER_SUPPLY_CAPACITY_LEVEL_CRITICAL
| POWER_SUPPLY_CAPACITY_LEVEL_LOW
| POWER_SUPPLY_CAPACITY_LEVEL_NORMAL
| POWER_SUPPLY_CAPACITY_LEVEL_FULL.

(** [max17048_get_capacity_level]: capacity level description. *)
Definition max17048_get_capacity_level : M power_supply_capacity_level :=
  soc <- max17048_get_soc ;;
  status <- max17048_get_status ;;
  if soc <? 0 then Ret POWER_SUPPLY_CAPACITY_LEVEL_UNKNOWN
  else if status_eqb status POWER_SUPPLY_STATUS_FULL
          || (soc >=? MAX17048_CAP_FULL_THR)
       then Ret POWER_SUPPLY_CAPACITY_LEVEL_FULL
  else if soc <=? MAX17048_CAP_CRIT_THR then Ret POWER_SUPPLY_CAPACITY_LEVEL_CRITICAL
  else if soc <=? MAX17048_CAP_LOW_THR then Ret POWER_SUPPLY_CAPACITY_LEVEL_LOW
  else Ret POWER_SUPPLY_CAPACITY_LEVEL_NORMAL.

(** ** Estimates and property dispatch

    The errno values come from the kernel headers the driver is compiled
    against; the definitions take them as parameters. *)

(** [enum power_supply_property], the members the driver names; every
    other member is [POWER_SUPPLY_PROP_other]. *)
Inductive power_supply_property : Type :=
| POWER_SUPPLY_PROP_STATUS
| POWER_SUPPLY_PROP_VOLTAGE_NOW
| POWER_SUPPLY_PROP_CAPACITY
| POWER_SUPPLY_PROP_CAPACITY_LEVEL
| POWER_SUPPLY_PROP_CHARGE_FULL_DESIGN
| POWER_SUPPLY_PROP_CHARGE_NOW
| POWER_SUPPLY_PROP_ENERGY_NOW
| POWER_SUPPLY_PROP_ENERGY_FULL
| POWER_SUPPLY_PROP_ENERGY_FULL_DESIGN
| POWER_SUPPLY_PROP_TECHNOLOGY
| POWER_SUPPLY_PROP_CURRENT_NOW
| POWER_SUPPLY_PROP_TIME_TO_EMPTY_NOW
| POWER_SUPPLY_PROP_TIME_TO_FULL_NOW
| POWER_SUPPLY_PROP_MODEL_NAME
| POWER_SUPPLY_PROP_MANUFACTURER
| POWER_SUPPLY_PROP_PRESENT
| POWER_SUPPLY_PROP_ONLINE
| POWER_SUPPLY_PROP_other.

(** [union power_supply_propval], tagged by the member last written. *)
Inductive power_supply_propval : Type :=
| Intval (intval : Z)
| Statusval (status : power_supply_status)
| Levelval (level : power_supply_capacity_level)
| Technology_LIPO
| Strval (strval : string).

Section Errno.

Variables EINVAL ENODATA : Z.

(** [max17048_get_time_to_empty]: estimate of the time to empty, in
    seconds. *)
Definition max17048_get_time_to_empty (val : Z) : M (Z * Z) :=
  '(ret, crate) <- max17048_get_crate 0 ;;
  if nonzero ret then Ret (ret, val)
  else if crate >=? - MAX17048_TTE_RATE_THR then Ret (- ENODATA, val)
  else
    soc <- max17048_get_soc ;;
    if soc <? 0 then Ret (soc, val)
    else
      let discharge_rate := to_int (abs crate) in
      Ret (0, to_int (div_s64
                        (to_s64 (to_s64 (MAX17048_TTE_CONST_NUM * soc)
                                 * MAX17048_TTE_TUNING_FACTOR))
                        (to_s64 (discharge_rate * MAX17048_TTE_CONST_DEN)))).

(** [max17048_get_time_to_full]: estimate of the time to full, in
    seconds. *)
Definition max17048_get_time_to_full (val : Z) : M (Z * Z) :=
  '(ret, crate) <- max17048_get_crate 0 ;;
  if nonzero ret then Ret (ret, val)
  else if crate <=? MAX17048_TTE_RATE_THR then Ret (- ENODATA, val)
  else
    soc <- max17048_get_soc ;;
    if soc <? 0 then Ret (soc, val)
    else
      Ret (0, to_int (div_s64
                        (to_s64 (MAX17048_TTE_CONST_NUM * (100 - soc)))
                        (to_s64 (crate * MAX17048_TTE_CONST_DEN)))).

(** [battery_get_property]: the power-supply [get_property] callback of
    the battery.  Returns the status and the pointee [*val]. *)
Definition battery_get_property (psp : power_supply_property)
    (val : power_supply_propval) : M (Z * power_supply_propval) :=
  match psp with
  | POWER_SUPPLY_PROP_STATUS =>
      status <- max17048_get_status ;;
      Ret (0, Statusval status)
  | POWER_SUPPLY_PROP_VOLTAGE_NOW =>
      ret <- max17048_get_vcell ;;
      if ret <? 0 then Ret (ret, val) else Ret (0, Intval ret)
  | POWER_SUPPLY_PROP_CAPACITY =>
      ret <- max17048_get_soc ;;
      if ret <? 0 then Ret (ret, val) else Ret (0, Intval ret)
  | POWER_SUPPLY_PROP_CAPACITY_LEVEL =>
      level <- max17048_get_capacity_level ;;
      Ret (0, Levelval level)
  | POWER_SUPPLY_PROP_CHARGE_NOW =>
      ret <- max17048_get_soc ;;
      if ret <? 0 then Ret (ret, val)
      else
        fun battery =>
          ((0, Intval (to_int (div_s64
                                 (to_s64 (ret * charge_full_design_uah battery))
                                 100))),
           battery)
  | POWER_SUPPLY_PROP_CHARGE_FULL_DESIGN =>
      fun battery =>
        ((0, Intval (to_int (charge_full_design_uah battery))), battery)
  | POWER_SUPPLY_PROP_ENERGY_NOW =>
      ret <- max17048_get_soc ;;
      if ret <? 0 then Ret (ret, val)
      else
        fun battery =>
          ((0, Intval (to_int (div_s64
                                 (to_s64 (ret * energy_full_design_uwh battery))
                                 100))),
           battery)
  | POWER_SUPPLY_PROP_ENERGY_FULL
  | POWER_SUPPLY_PROP_ENERGY_FULL_DESIGN =>
      fun battery =>
        ((0, Intval (to_int (energy_full_design_uwh battery))), battery)
  | POWER_SUPPLY_PROP_TECHNOLOGY => Ret (0, Technology_LIPO)
  | POWER_SUPPLY_PROP_CURRENT_NOW =>
      let intval := match val with Intval z => z | _ => 0 end in
      '(ret, intval') <- max17048_get_current intval ;;
      if ret <? 0 then Ret (ret, val) else Ret (0, Intval intval')
  | POWER_SUPPLY_PROP_TIME_TO_EMPTY_NOW =>
      let intval := match val with Intval z => z | _ => 0 end in
      '(ret, intval') <- max17048_get_time_to_empty intval ;;
      if ret <? 0 then Ret (ret, val) else Ret (0, Intval intval')
  | POWER_SUPPLY_PROP_TIME_TO_FULL_NOW =>
      let intval := match val with Intval z => z | _ => 0 end in
      '(ret, intval') <- max17048_get_time_to_full intval ;;
      if ret <? 0 then Ret (ret, val) else Ret (0, Intval intval')
  | POWER_SUPPLY_PROP_MODEL_NAME => Ret (0, Strval "MAX17048")
  | POWER_SUPPLY_PROP_MANUFACTURER => Ret (0, Strval "Maxim Integrated")
  | POWER_SUPPLY_PROP_PRESENT => Ret (0, Intval 1)
  | _ => Ret (- EINVAL, val)
  end.

(** [max17048_ac_get_property]: the [get_property] callback of the AC
    adapter. *)
Definition max17048_ac_get_property (psp : power_supply_property)
    (val : power_supply_propval) : M (Z * power_supply_propval) :=
  match psp with
  | POWER_SUPPLY_PROP_ONLINE =>
      status <- max17048_get_status ;;
      Ret (0, Intval
                (if status_eqb status POWER_SUPPLY_STATUS_CHARGING
                    || status_eqb status POWER_SUPPLY_STATUS_FULL
                 then 1 else 0))
  | _ => Ret (- EINVAL, val)
  end.

End Errno.

(** ** Design capacity and energy: the property block of [max17048_probe] *)

(** The firmware node of the device: what reading a [u32] property by
    name answers. *)
Record device : Type := {
  fwnode : string -> io_result
}.

(** [struct i2c_client]: the device and its interrupt line (0: none). *)
Record i2c_client : Type := {
  dev : device;
  irq : Z
}.

(** [device_property_read_u32(dev, propname, &val)]: returns the status
    and the pointee, which is written on success only. *)
Definition device_property_read_u32 (d : device) (propname : string) (val : Z)
  : Z * Z :=
  match fwnode d propname with
  | IoOk v => (0, v)
  | IoErr e => (Z.neg e, val)
  end.

Section Probe.

(** Conversion of milliseconds to timer ticks, fixed by the kernel
    configuration. *)
Variable msecs_to_jiffies : Z -> Z.

(** [max17048_probe], from the zeroed allocation of the driver data to
    the choice of the polling delay; the allocation and the
    registrations of the kernel objects are taken to succeed. *)
Definition max17048_probe (client : i2c_client) (map : struct_regmap)
  : max17048 :=
  let d := dev client in
  let '(ret, charge) :=
    device_property_read_u32 d "charge-full-design-microamp-hours" 0 in
  let charge :=
    if charge >? MAX17048_MAX_CAP_UAH then MAX17048_MAX_CAP_UAH else charge in
  let charge :=
    if nonzero ret then
      let '(ret_mah, cap_mah) :=
        device_property_read_u32 d "battery-capacity" 0 in
      if ret_mah =? 0 then
        if (cap_mah >? 0) && (cap_mah <? 20000)
        then to_u32 (cap_mah * 1000)
        else charge
      else charge
    else charge in
  let charge :=
    if charge =? 0 then MAX17048_DEFAULT_CAP_UAH else charge in
  let '(ret, energy) :=
    device_property_read_u32 d "energy-full-design-microwatt-hours" 0 in
  let energy :=
    if nonzero ret || (energy =? 0)
    then to_u32 (div_u64 (to_u64 (charge * 37)) 10)
    else energy in
  let energy :=
    if energy >? MAX17048_MAX_ENERGY_UWH then MAX17048_MAX_ENERGY_UWH
    else energy in
  {| regmap := map;
     charge_full_design_uah := charge;
     energy_full_design_uwh := energy;
     delay := if nonzero (irq client)
              then msecs_to_jiffies 300000
              else msecs_to_jiffies 30000 |}.

End Probe.

(** ** Notification handlers

    [max17048_work] and [max17048_irq_handler] are straight-line code; each
    is the list of the kernel calls it makes, and [exec_stmt] gives a call
    its effect on the part of the kernel state the driver touches.  The
    delayed work runs on a workqueue and the handler in the interrupt
    thread, so the two lists may interleave. *)

Inductive power_supply : Type :=
| Battery      (* drv->battery *)
| Ac_adapter.  (* drv->ac_adapter *)

Definition power_supply_eqb (a b : power_supply) : bool :=
  match a, b with
  | Battery, Battery | Ac_adapter, Ac_adapter => true
  | _, _ => false
  end.

Inductive stmt : Type :=
| Regmap_read (reg : Z)
| Power_supply_changed (psy : power_supply)
| Schedule_delayed_work.

Definition max17048_work : list stmt :=
  [ Power_supply_changed Battery;
    Power_supply_changed Ac_adapter;
    Schedule_delayed_work ].

Definition max17048_irq_handler : list stmt :=
  [ Regmap_read MAX17048_STATUS_REG;
    Power_supply_changed Battery;
    Power_supply_changed Ac_adapter ].

(** The kernel state around the driver: the driver data, how often
    [power_supply_changed] was called for each supply, the delay of the
    armed delayed work (if armed), and the statements that the work pass
    and the interrupt handler in flight still have to run ([[]]: not
    running). *)
Record kernel : Type := {
  drv : max17048;
  changed : power_supply -> nat;
  timer : option Z;
  work_rest : list stmt;
  irq_rest : list stmt
}.

Definition exec_stmt (s : stmt) (k : kernel) : kernel :=
  match s with
  | Regmap_read reg =>
      {| drv := snd (max17048_read_reg reg 0 (drv k));
         changed := changed k;
         timer := timer k;
         work_rest := work_rest k;
         irq_rest := irq_rest k |}
  | Power_supply_changed psy =>
      {| drv := drv k;
         changed := fun p =>
           if power_supply_eqb p psy then S (changed k p) else changed k p;
         timer := timer k;
         work_rest := work_rest k;
         irq_rest := irq_rest k |}
  | Schedule_delayed_work =>
      {| drv := drv k;
         changed := changed k;
         timer := match timer k with
                  | Some t => Some t
                  | None => Some (delay (drv k))
                  end;
         work_rest := work_rest k;
         irq_rest := irq_rest k |}
  end.

(** What can happen next: the timer of the delayed work fires ([Tick]),
    the alert line raises the interrupt ([Alert]), the work pass or the
    interrupt handler in flight runs its next statement. *)
Inductive action : Type :=
| Tick
| Alert
| Work_step
| Irq_step.

(** One action.  [None]: the action cannot happen in this state (no armed
    timer; the interrupt line is masked while its handler runs; nothing in
    flight to run). *)
Definition step (a : action) (k : kernel) : option kernel :=
  match a with
  | Tick =>
      match timer k, work_rest k with
      | Some _, [] =>
          Some {| drv := drv k; changed := changed k; timer := None;
                  work_rest := max17048_work; irq_rest := irq_rest k |}
      | _, _ => None
      end
  | Alert =>
      match irq_rest k with
      | [] =>
          Some {| drv := drv k; changed := changed k; timer := timer k;
                  work_rest := work_rest k;
                  irq_rest := max17048_irq_handler |}
      | _ :: _ => None
      end
  | Work_step =>
      match work_rest k with
      | s :: rest =>
          Some (exec_stmt s
                  {| drv := drv k; changed := changed k; timer := timer k;
                     work_rest := rest; irq_rest := irq_rest k |})
      | [] => None
      end
  | Irq_step =>
      match irq_rest k with
      | s :: rest =>
          Some (exec_stmt s
                  {| drv := drv k; changed := changed k; timer := timer k;
                     work_rest := work_rest k; irq_rest := rest |})
      | [] => None
      end
  end.

(** A schedule: actions in the order they happen. *)
Fixpoint run (schedule : list action) (k : kernel) : option kernel :=
  match schedule with
  | [] => Some k
  | a :: rest =>
      match step a k with
      | Some k' => run rest k'
      | None => None
      end
  end.

(** A refresh pass of the delayed work is in flight. *)
Definition work_in_flight (k : kernel) : bool :=
  match work_rest k with [] => false | _ :: _ => true end.

(** Nothing is in flight. *)
Definition idle (k : kernel) : bool :=
  match work_rest k, irq_rest k with [] , [] => true | _, _ => false end.

(** Calls of [power_supply_changed] on [psy] that a statement list makes. *)
Fixpoint owed (psy : power_supply) (l : list stmt) : nat :=
  match l with
  | [] => 0
  | Power_supply_changed p :: rest =>
      if power_supply_eqb psy p then S (owed psy rest) else owed psy rest
  | _ :: rest => owed psy rest
  end.

(** 1 for a trigger, 0 for a step of a handler. *)
Definition trigger_count (a : action) : nat :=
  match a with Tick | Alert => 1 | Work_step | Irq_step => 0 end.

(** Occurrences of [Tick] and [Alert] in a schedule. *)
Fixpoint triggers (schedule : list action) : nat :=
  match schedule with
  | [] => 0
  | Tick :: rest | Alert :: rest => S (triggers rest)
  | _ :: rest => triggers rest
  end.

(** The kernel state when [max17048_probe] returns: nothing notified yet,
    the delayed work armed with the chosen delay. *)
Definition after_probe (d : max17048) : kernel :=
  {| drv := d; changed := fun _ => 0%nat; timer := Some (delay d);
     work_rest := []; irq_rest := [] |}.

(** ** Concrete devices used in examples *)

Module Fixture.

(** A chip whose three measurement registers answer the same at every
    read. *)
Definition steady (vcell soc crate : io_result) : nat -> Z -> io_result :=
  fun _ reg =>
    if reg =? MAX17048_VCELL_REG then vcell
    else if reg =? MAX17048_SOC_REG then soc
    else if reg =? MAX17048_CRATE_REG then crate
    else IoOk 0.

(** A chip that answers [first] to the first read and [later] from then
    on. *)
Definition changing (first later : nat -> Z -> io_result)
  : nat -> Z -> io_result :=
  fun n reg => match n with O => first n reg | S _ => later n reg end.

(** Driver data of the default 5000 mAh battery on chip [c]. *)
Definition battery_on (c : nat -> Z -> io_result) : max17048 :=
  {| regmap := {| reads := 0; chip := c |};
     charge_full_design_uah := 5000000;
     energy_full_design_uwh := 18500000;
     delay := 7500 |}.

(** A firmware node with the given optional properties. *)
Definition node (charge_uah capacity_mah energy_uwh : option Z) : device :=
  {| fwnode := fun name =>
       let pick (o : option Z) :=
         match o with Some v => IoOk v | None => IoErr 22 end in
       if String.eqb name "charge-full-design-microamp-hours"
       then pick charge_uah
       else if String.eqb name "battery-capacity" then pick capacity_mah
       else if String.eqb name "energy-full-design-microwatt-hours"
       then pick energy_uwh
       else IoErr 22 |}.

(** A client without an interrupt line. *)
Definition client_of (d : device) : i2c_client := {| dev := d; irq := 0 |}.

End Fixture.

(** ** Notions used in the properties of the callbacks and handlers *)

(** Two driver data agree on everything but the number of reads done. *)
Definition same_config (a b : max17048) : Prop :=
  charge_full_design_uah a = charge_full_design_uah b
  /\ energy_full_design_uwh a = energy_full_design_uwh b
  /\ delay a = delay b
  /\ chip (regmap a) = chip (regmap b).

(** A computation that does nothing to the driver data but read at most
    [hi] registers. *)
Definition frames {A : Type} (hi : nat) (c : M A) : Prop :=
  forall battery,
    exists n, (n <= hi)%nat /\ snd (c battery) = after_reads n battery.

(** Every register read fails from now on. *)
Definition dead_bus (battery : max17048) : Prop :=
  forall k reg, exists e, answer battery k reg = IoErr e.

(** Register reads that a statement list makes. *)
Fixpoint owed_reads (l : list stmt) : nat :=
  match l with
  | [] => 0
  | Regmap_read _ :: rest => S (owed_reads rest)
  | _ :: rest => owed_reads rest
  end.

(** Occurrences of [Alert] in a schedule. *)
Fixpoint alerts (schedule : list action) : nat :=
  match schedule with
  | [] => 0
  | Alert :: rest => S (alerts rest)
  | _ :: rest => alerts rest
  end.

(** The polling of driver data [d] is alive: either the delayed work is
    armed with the delay of [d] and no pass runs, or a pass runs, the
    timer is not armed and the pass still has its re-arming statement to
    run; the interrupt handler in flight does not arm the timer. *)
Definition polling_alive (d : max17048) (k : kernel) : Prop :=
  delay (drv k) = delay d
  /\ ((timer k = Some (delay d) /\ work_rest k = [])
      \/ (timer k = None
          /\ (work_rest k = max17048_work
              \/ work_rest k = [Power_supply_changed Ac_adapter;
                                Schedule_delayed_work]
              \/ work_rest k = [Schedule_delayed_work])))
  /\ ~ In Schedule_delayed_work (irq_rest k).

Module Scenario.

(** A chip on which every read fails with EIO. *)
Definition dead : nat -> Z -> io_result := fun _ _ => IoErr 5.

(** A client with interrupt line 17. *)
Definition client_with_irq (d : device) : i2c_client :=
  {| dev := d; irq := 17 |}.

(** A kernel with 250 timer ticks per second. *)
Definition jiffies_250 (ms : Z) : Z := ms / 4.

(** A register map on which nothing was read yet. *)
Definition fresh_map (c : nat -> Z -> io_result) : struct_regmap :=
  {| reads := 0; chip := c |}.

End Scenario.

(** ** Facts on the integer conversions *)

Lemma to_u32_small z : 0 <= z < 4294967296 -> to_u32 z = z.
Proof. intros H. unfold to_u32. apply Z.mod_small. exact H. Qed.

Lemma to_int_small z : -2147483648 <= z < 2147483648 -> to_int z = z.
Proof.
  intros H. unfold to_int.
  destruct (Z_lt_le_dec z 0) as [Hn | Hp].
  - replace (z mod 4294967296) with (z + 4294967296).
    + destruct (Z.ltb_spec (z + 4294967296) 2147483648); lia.
    + apply Z.mod_unique with (q := -1); lia.
  - rewrite Z.mod_small by lia.
    destruct (Z.ltb_spec z 2147483648); lia.
Qed.

Lemma to_s64_small z :
  -9223372036854775808 <= z < 9223372036854775808 -> to_s64 z = z.
Proof.
  intros H. unfold to_s64.
  destruct (Z_lt_le_dec z 0) as [Hn | Hp].
  - replace (z mod 18446744073709551616) with (z + 18446744073709551616).
    + destruct (Z.ltb_spec (z + 18446744073709551616) 9223372036854775808); lia.
    + apply Z.mod_unique with (q := -1); lia.
  - rewrite Z.mod_small by lia.
    destruct (Z.ltb_spec z 9223372036854775808); lia.
Qed.

Lemma to_s16_range z : -32768 <= to_s16 z < 32768.
Proof.
  unfold to_s16.
  pose proof (Z.mod_pos_bound z 65536 ltac:(lia)) as Hb.
  destruct (Z.ltb_spec (z mod 65536) 32768); lia.
Qed.

Lemma abs_s16 x : -32768 <= x < 32768 -> abs x = Z.abs x.
Proof.
  intros H. unfold abs.
  destruct (Z.ltb_spec x 0).
  - rewrite to_int_small by lia. lia.
  - lia.
Qed.

(** The C-rate register is read as a signed 16-bit value. *)
Example to_s16_0x8000 : to_s16 32768 = -32768.
Proof. reflexivity. Qed.

Example to_s16_0x0005 : to_s16 5 = 5.
Proof. reflexivity. Qed.

Lemma quot_25000_bounds a bound :
  0 <= bound ->
  - (bound * 25000) <= a <= bound * 25000 ->
  - bound <= Z.quot a 25000 <= bound.
Proof.
  intros Hb [Hlo Hhi]. split.
  - rewrite <- (Z.quot_mul (- bound) 25000) by lia.
    apply Z.quot_le_mono; lia.
  - rewrite <- (Z.quot_mul bound 25000) by lia.
    apply Z.quot_le_mono; lia.
Qed.

(** ** Register reads *)

Section Reads.

Variable battery : max17048.

Lemma read_reg_ok reg val v :
  answer battery 0 reg = IoOk v ->
  max17048_read_reg reg val battery = ((0, v), after_reads 1 battery).
Proof.
  unfold answer, max17048_read_reg, regmap_read. simpl.
  intros ->. reflexivity.
Qed.

Lemma read_reg_err reg val e :
  answer battery 0 reg = IoErr e ->
  max17048_read_reg reg val battery = ((Z.neg e, val), after_reads 1 battery).
Proof.
  unfold answer, max17048_read_reg, regmap_read. simpl.
  intros ->. reflexivity.
Qed.

Lemma get_vcell_ok raw :
  answer battery 0 MAX17048_VCELL_REG = IoOk raw ->
  0 <= raw < 65536 ->
  max17048_get_vcell battery = (raw * 625 / 8, after_reads 1 battery).
Proof.
  intros Hans Hraw. unfold max17048_get_vcell, bind.
  rewrite (read_reg_ok _ _ _ Hans). simpl.
  unfold Ret, MAX17048_VCELL_LSB_NUM, MAX17048_VCELL_LSB_DEN.
  rewrite to_u32_small by lia.
  rewrite to_int_small; [reflexivity|].
  split.
  - transitivity 0; [lia | apply Z.div_pos; lia].
  - apply Z.div_lt_upper_bound; lia.
Qed.

Lemma get_vcell_err e :
  answer battery 0 MAX17048_VCELL_REG = IoErr e ->
  max17048_get_vcell battery = (Z.neg e, after_reads 1 battery).
Proof.
  intros Hans. unfold max17048_get_vcell, bind.
  rewrite (read_reg_err _ _ _ Hans). reflexivity.
Qed.

Lemma get_soc_ok raw :
  answer battery 0 MAX17048_SOC_REG = IoOk raw ->
  0 <= raw < 65536 ->
  max17048_get_soc battery = (Z.min (raw / 256) 100, after_reads 1 battery).
Proof.
  intros Hans Hraw. unfold max17048_get_soc, bind.
  rewrite (read_reg_ok _ _ _ Hans). simpl.
  unfold Ret, MAX17048_SOC_LSB_INV.
  assert (0 <= raw / 256 < 256) as Hq.
  { split; [apply Z.div_pos; lia | apply Z.div_lt_upper_bound; lia]. }
  destruct (Z.gtb_spec (raw / 256) 100) as [Hgt | Hle].
  - rewrite to_int_small by lia. f_equal. lia.
  - rewrite to_int_small by lia. f_equal. lia.
Qed.

Lemma get_soc_err e :
  answer battery 0 MAX17048_SOC_REG = IoErr e ->
  max17048_get_soc battery = (Z.neg e, after_reads 1 battery).
Proof.
  intros Hans. unfold max17048_get_soc, bind.
  rewrite (read_reg_err _ _ _ Hans). reflexivity.
Qed.

Lemma get_crate_ok crate raw :
  answer battery 0 MAX17048_CRATE_REG = IoOk raw ->
  max17048_get_crate crate battery = ((0, to_s16 raw), after_reads 1 battery).
Proof.
  intros Hans. unfold max17048_get_crate, bind.
  rewrite (read_reg_ok _ _ _ Hans). reflexivity.
Qed.

Lemma get_crate_err crate e :
  answer battery 0 MAX17048_CRATE_REG = IoErr e ->
  max17048_get_crate crate battery = ((Z.neg e, crate), after_reads 1 battery).
Proof.
  intros Hans. unfold max17048_get_crate, bind.
  rewrite (read_reg_err _ _ _ Hans). reflexivity.
Qed.

End Reads.

(** The percentage [max17048_get_soc] makes of a raw code. *)
Lemma soc_percent_range raw :
  0 <= raw < 65536 -> 0 <= Z.min (raw / 256) 100 <= 100.
Proof.
  intros H. assert (0 <= raw / 256) by (apply Z.div_pos; lia). lia.
Qed.


(** ** Voltage and state of charge *)

(** C6: for every 16-bit raw code of the voltage register,
    [max17048_get_vcell] returns exactly [raw * 625 / 8] microvolts, the
    division truncating (floor and truncation toward zero agree here); the
    product [raw * 625] does not wrap in the 32-bit unsigned arithmetic
    the code uses, so the result is the one a 64-bit intermediate product
    gives. *)
Theorem get_vcell_exact battery raw :
  answer battery 0 MAX17048_VCELL_REG = IoOk raw ->
  0 <= raw < 65536 ->
  fst (max17048_get_vcell battery) = raw * 625 / 8
  /\ raw * 625 / 8 = Z.quot (raw * 625) 8
  /\ to_u32 (raw * MAX17048_VCELL_LSB_NUM) = raw * 625
  /\ fst (max17048_get_vcell battery)
     = div_u64 (to_u64 (raw * 625)) MAX17048_VCELL_LSB_DEN.
Proof.
  intros Hans Hraw.
  rewrite (get_vcell_ok _ _ Hans Hraw). simpl fst.
  repeat split.
  - symmetry. apply Z.quot_div_nonneg; lia.
  - unfold MAX17048_VCELL_LSB_NUM. apply to_u32_small. lia.
  - unfold div_u64, to_u64, MAX17048_VCELL_LSB_DEN.
    rewrite Z.mod_small by lia. reflexivity.
Qed.

Lemma get_vcell_exact_witness :
  let battery :=
    Fixture.battery_on (Fixture.steady (IoOk 51200) (IoOk 12800) (IoOk 0)) in
  fst (max17048_get_vcell battery) = 4000000
  /\ to_u32 (51200 * MAX17048_VCELL_LSB_NUM) = 32000000.
Proof.
  intros battery.
  destruct (get_vcell_exact battery 51200) as (Hv & _ & Hw & _);
    [reflexivity | lia |].
  split; [exact Hv | exact Hw].
Defined.

(** The largest code gives 5119921 uV, far below the range of [int]. *)
Example get_vcell_largest :
  fst (max17048_get_vcell
         (Fixture.battery_on
            (Fixture.steady (IoOk 65535) (IoOk 0) (IoOk 0)))) = 5119921.
Proof. reflexivity. Qed.

(** C5: for every 16-bit raw code of the state-of-charge register,
    [max17048_get_soc] returns [raw / 256] (floor) clamped above at 100;
    every code from 25600 on yields exactly 100, and the result is never
    negative, so a code above 100 % is not reported as an error. *)
Theorem get_soc_clamped battery raw :
  answer battery 0 MAX17048_SOC_REG = IoOk raw ->
  0 <= raw < 65536 ->
  fst (max17048_get_soc battery) = Z.min (raw / 256) 100
  /\ (25600 <= raw -> fst (max17048_get_soc battery) = 100)
  /\ 0 <= fst (max17048_get_soc battery) <= 100
  /\ (forall EINVAL ENODATA val,
         fst (battery_get_property EINVAL ENODATA
                POWER_SUPPLY_PROP_CAPACITY val battery)
         = (0, Intval (Z.min (raw / 256) 100))).
Proof.
  intros Hans Hraw.
  pose proof (soc_percent_range raw Hraw) as Hpct.
  split; [| split; [| split]].
  - rewrite (get_soc_ok _ _ Hans Hraw). reflexivity.
  - intros Hfull. rewrite (get_soc_ok _ _ Hans Hraw). simpl fst.
    assert (100 <= raw / 256) by (apply Z.div_le_lower_bound; lia).
    lia.
  - rewrite (get_soc_ok _ _ Hans Hraw). exact Hpct.
  - intros EINVAL ENODATA val. unfold battery_get_property, bind.
    rewrite (get_soc_ok _ _ Hans Hraw).
    destruct (Z.ltb_spec (Z.min (raw / 256) 100) 0); [lia | reflexivity].
Qed.

Lemma get_soc_clamped_witness :
  let battery :=
    Fixture.battery_on (Fixture.steady (IoOk 0) (IoOk 26000) (IoOk 0)) in
  26000 / 256 = 101 /\ fst (max17048_get_soc battery) = 100.
Proof.
  intros battery. split; [reflexivity |].
  destruct (get_soc_clamped battery 26000) as (_ & Hfull & _);
    [reflexivity | lia |].
  apply Hfull. lia.
Defined.

Example get_soc_below_full :
  fst (max17048_get_soc
         (Fixture.battery_on
            (Fixture.steady (IoOk 0) (IoOk 12999) (IoOk 0)))) = 50.
Proof. reflexivity. Qed.

(** ** Charging status *)

Section Status.

Variable battery : max17048.

Lemma get_status_crate_err e :
  answer battery 0 MAX17048_CRATE_REG = IoErr e ->
  max17048_get_status battery
  = (POWER_SUPPLY_STATUS_UNKNOWN, after_reads 1 battery).
Proof.
  intros Hc. unfold max17048_get_status, bind.
  rewrite (get_crate_err _ _ _ Hc). reflexivity.
Qed.

Lemma get_status_charging raw :
  answer battery 0 MAX17048_CRATE_REG = IoOk raw ->
  4 < to_s16 raw ->
  max17048_get_status battery
  = (POWER_SUPPLY_STATUS_CHARGING, after_reads 1 battery).
Proof.
  intros Hc Hgt. unfold max17048_get_status, bind.
  rewrite (get_crate_ok _ _ _ Hc). cbn [nonzero Z.eqb negb].
  unfold MAX17048_CRATE_NOISE_THR.
  destruct (Z.gtb_spec (to_s16 raw) 4); [reflexivity | lia].
Qed.

Lemma get_status_discharging raw :
  answer battery 0 MAX17048_CRATE_REG = IoOk raw ->
  to_s16 raw < -4 ->
  max17048_get_status battery
  = (POWER_SUPPLY_STATUS_DISCHARGING, after_reads 1 battery).
Proof.
  intros Hc Hlt. unfold max17048_get_status, bind.
  rewrite (get_crate_ok _ _ _ Hc). cbn [nonzero Z.eqb negb].
  unfold MAX17048_CRATE_NOISE_THR. cbn [Z.opp].
  destruct (Z.gtb_spec (to_s16 raw) 4); [lia |].
  destruct (Z.ltb_spec (to_s16 raw) (-4)); [reflexivity | lia].
Qed.

(** In the noise band the status is decided by what [max17048_get_soc]
    returns, whatever that is. *)
Lemma get_status_band raw :
  answer battery 0 MAX17048_CRATE_REG = IoOk raw ->
  -4 <= to_s16 raw <= 4 ->
  max17048_get_status battery
  = (if fst (max17048_get_soc (after_reads 1 battery)) >=? 95
     then POWER_SUPPLY_STATUS_FULL
     else POWER_SUPPLY_STATUS_NOT_CHARGING,
     snd (max17048_get_soc (after_reads 1 battery))).
Proof.
  intros Hc Hband. unfold max17048_get_status, bind.
  rewrite (get_crate_ok _ _ _ Hc). cbn [nonzero Z.eqb negb].
  unfold MAX17048_CRATE_NOISE_THR, MAX17048_FULL_SOC_THR. cbn [Z.opp].
  destruct (Z.gtb_spec (to_s16 raw) 4); [lia |].
  destruct (Z.ltb_spec (to_s16 raw) (-4)); [lia |].
  destruct (max17048_get_soc (after_reads 1 battery)) as [soc battery'].
  simpl. destruct (soc >=? 95); reflexivity.
Qed.

Lemma get_status_band_soc_ok raw soc_raw :
  answer battery 0 MAX17048_CRATE_REG = IoOk raw ->
  -4 <= to_s16 raw <= 4 ->
  answer battery 1 MAX17048_SOC_REG = IoOk soc_raw ->
  0 <= soc_raw < 65536 ->
  max17048_get_status battery
  = (if Z.min (soc_raw / 256) 100 >=? 95
     then POWER_SUPPLY_STATUS_FULL
     else POWER_SUPPLY_STATUS_NOT_CHARGING,
     after_reads 2 battery).
Proof.
  intros Hc Hband Hs Hrange.
  rewrite (get_status_band _ Hc Hband).
  rewrite (get_soc_ok (after_reads 1 battery) soc_raw Hs Hrange).
  reflexivity.
Qed.

Lemma get_status_band_soc_err raw e :
  answer battery 0 MAX17048_CRATE_REG = IoOk raw ->
  -4 <= to_s16 raw <= 4 ->
  answer battery 1 MAX17048_SOC_REG = IoErr e ->
  max17048_get_status battery
  = (POWER_SUPPLY_STATUS_NOT_CHARGING, after_reads 2 battery).
Proof.
  intros Hc Hband Hs.
  rewrite (get_status_band _ Hc Hband).
  rewrite (get_soc_err (after_reads 1 battery) e Hs).
  reflexivity.
Qed.

End Status.

(** C4: [max17048_get_status] always returns a status.  A failed C-rate
    read gives Unknown; otherwise a C-rate above +4 gives Charging, one
    below -4 gives Discharging, and within the band the state of charge
    is read and gives Full from 95 % on and NotCharging below. *)
Theorem get_status_classifies battery :
  (forall e,
      answer battery 0 MAX17048_CRATE_REG = IoErr e ->
      fst (max17048_get_status battery) = POWER_SUPPLY_STATUS_UNKNOWN)
  /\ (forall raw,
         answer battery 0 MAX17048_CRATE_REG = IoOk raw ->
         (4 < to_s16 raw ->
          fst (max17048_get_status battery) = POWER_SUPPLY_STATUS_CHARGING)
         /\ (to_s16 raw < -4 ->
             fst (max17048_get_status battery)
             = POWER_SUPPLY_STATUS_DISCHARGING)
         /\ (forall soc_raw,
                -4 <= to_s16 raw <= 4 ->
                answer battery 1 MAX17048_SOC_REG = IoOk soc_raw ->
                0 <= soc_raw < 65536 ->
                (95 <= Z.min (soc_raw / 256) 100 ->
                 fst (max17048_get_status battery)
                 = POWER_SUPPLY_STATUS_FULL)
                /\ (Z.min (soc_raw / 256) 100 < 95 ->
                    fst (max17048_get_status battery)
                    = POWER_SUPPLY_STATUS_NOT_CHARGING))).
Proof.
  split.
  - intros e Hc. rewrite (get_status_crate_err _ _ Hc). reflexivity.
  - intros raw Hc. split; [| split].
    + intros Hgt. rewrite (get_status_charging _ _ Hc Hgt). reflexivity.
    + intros Hlt. rewrite (get_status_discharging _ _ Hc Hlt). reflexivity.
    + intros soc_raw Hband Hs Hrange.
      rewrite (get_status_band_soc_ok _ _ _ Hc Hband Hs Hrange). simpl fst.
      destruct (Z.geb_spec (Z.min (soc_raw / 256) 100) 95);
        split; intros; try reflexivity; lia.
Qed.

(** The four readings the specification lists, and a failed C-rate read:
    crate = 5, crate = -5, crate = 0 at 96 %, crate = 0 at 50 %. *)
Lemma get_status_classifies_witness :
  fst (max17048_get_status
         (Fixture.battery_on
            (Fixture.steady (IoOk 0) (IoOk 12800) (IoOk 5))))
  = POWER_SUPPLY_STATUS_CHARGING
  /\ fst (max17048_get_status
            (Fixture.battery_on
               (Fixture.steady (IoOk 0) (IoOk 12800) (IoOk 65531))))
     = POWER_SUPPLY_STATUS_DISCHARGING
  /\ fst (max17048_get_status
            (Fixture.battery_on
               (Fixture.steady (IoOk 0) (IoOk 24576) (IoOk 0))))
     = POWER_SUPPLY_STATUS_FULL
  /\ fst (max17048_get_status
            (Fixture.battery_on
               (Fixture.steady (IoOk 0) (IoOk 12800) (IoOk 0))))
     = POWER_SUPPLY_STATUS_NOT_CHARGING
  /\ fst (max17048_get_status
            (Fixture.battery_on
               (Fixture.steady (IoOk 0) (IoOk 12800) (IoErr 5))))
     = POWER_SUPPLY_STATUS_UNKNOWN.
Proof.
  split; [| split; [| split; [| split]]].
  - destruct (get_status_classifies
                (Fixture.battery_on
                   (Fixture.steady (IoOk 0) (IoOk 12800) (IoOk 5))))
      as [_ Hok].
    destruct (Hok 5 eq_refl) as (Hcharging & _).
    apply Hcharging. vm_compute. reflexivity.
  - destruct (get_status_classifies
                (Fixture.battery_on
                   (Fixture.steady (IoOk 0) (IoOk 12800) (IoOk 65531))))
      as [_ Hok].
    destruct (Hok 65531 eq_refl) as (_ & Hdischarging & _).
    apply Hdischarging. vm_compute. reflexivity.
  - destruct (get_status_classifies
                (Fixture.battery_on
                   (Fixture.steady (IoOk 0) (IoOk 24576) (IoOk 0))))
      as [_ Hok].
    destruct (Hok 0 eq_refl) as (_ & _ & Hband).
    destruct (Hband 24576) as [Hfull _];
      [vm_compute; split; discriminate | reflexivity | lia |].
    apply Hfull. vm_compute. discriminate.
  - destruct (get_status_classifies
                (Fixture.battery_on
                   (Fixture.steady (IoOk 0) (IoOk 12800) (IoOk 0))))
      as [_ Hok].
    destruct (Hok 0 eq_refl) as (_ & _ & Hband).
    destruct (Hband 12800) as [_ Hnot];
      [vm_compute; split; discriminate | reflexivity | lia |].
    apply Hnot. vm_compute. reflexivity.
  - destruct (get_status_classifies
                (Fixture.battery_on
                   (Fixture.steady (IoOk 0) (IoOk 12800) (IoErr 5))))
      as [Herr _].
    apply (Herr 5%positive). reflexivity.
Defined.

(** C10: when the C-rate read succeeds with a value in the noise band and
    the read of the state of charge that follows fails, the status is
    NotCharging: neither Unknown nor an error code. *)
Theorem get_status_soc_failure battery raw e :
  answer battery 0 MAX17048_CRATE_REG = IoOk raw ->
  -4 <= to_s16 raw <= 4 ->
  answer battery 1 MAX17048_SOC_REG = IoErr e ->
  fst (max17048_get_status battery) = POWER_SUPPLY_STATUS_NOT_CHARGING.
Proof.
  intros Hc Hband Hs.
  rewrite (get_status_band_soc_err _ _ _ Hc Hband Hs). reflexivity.
Qed.

Lemma get_status_soc_failure_witness :
  fst (max17048_get_status
         (Fixture.battery_on
            (Fixture.steady (IoOk 0) (IoErr 121) (IoOk 65534))))
  = POWER_SUPPLY_STATUS_NOT_CHARGING.
Proof.
  apply (get_status_soc_failure _ 65534 121%positive);
    [reflexivity | vm_compute; split; discriminate | reflexivity].
Defined.

(** ** Capacity level *)

(** [max17048_get_capacity_level] reads the state of charge, then computes
    the status from the registers as they are after that read. *)
Lemma get_capacity_level_eq battery :
  max17048_get_capacity_level battery
  = (let soc := fst (max17048_get_soc battery) in
     let status :=
       fst (max17048_get_status (snd (max17048_get_soc battery))) in
     if soc <? 0 then POWER_SUPPLY_CAPACITY_LEVEL_UNKNOWN
     else if status_eqb status POWER_SUPPLY_STATUS_FULL || (soc >=? 99)
     then POWER_SUPPLY_CAPACITY_LEVEL_FULL
     else if soc <=? 5 then POWER_SUPPLY_CAPACITY_LEVEL_CRITICAL
     else if soc <=? 15 then POWER_SUPPLY_CAPACITY_LEVEL_LOW
     else POWER_SUPPLY_CAPACITY_LEVEL_NORMAL,
     snd (max17048_get_status (snd (max17048_get_soc battery)))).
Proof.
  unfold max17048_get_capacity_level, bind.
  destruct (max17048_get_soc battery) as [soc b1]. cbn [fst snd].
  destruct (max17048_get_status b1) as [status b2]. cbn [fst snd].
  unfold MAX17048_CAP_FULL_THR, MAX17048_CAP_CRIT_THR, MAX17048_CAP_LOW_THR, Ret.
  destruct (soc <? 0); [reflexivity |].
  destruct (status_eqb status POWER_SUPPLY_STATUS_FULL || (soc >=? 99));
    [reflexivity |].
  destruct (soc <=? 5); [reflexivity |].
  destruct (soc <=? 15); reflexivity.
Qed.

Lemma status_eqb_eq a b : status_eqb a b = true <-> a = b.
Proof. destruct a, b; simpl; split; congruence. Qed.

(** C8: [max17048_get_capacity_level] returns Unknown when the read of the
    state of charge fails; otherwise Full when the status is Full or the
    percentage is at least 99, this test coming before the lower
    thresholds; otherwise Critical up to 5 %, Low up to 15 %, and Normal
    for every other percentage. *)
Theorem get_capacity_level_classifies battery :
  (forall e,
      answer battery 0 MAX17048_SOC_REG = IoErr e ->
      fst (max17048_get_capacity_level battery)
      = POWER_SUPPLY_CAPACITY_LEVEL_UNKNOWN)
  /\ (forall raw,
         answer battery 0 MAX17048_SOC_REG = IoOk raw ->
         0 <= raw < 65536 ->
         let soc := Z.min (raw / 256) 100 in
         let status := fst (max17048_get_status (after_reads 1 battery)) in
         let level := fst (max17048_get_capacity_level battery) in
         (status = POWER_SUPPLY_STATUS_FULL \/ 99 <= soc ->
          level = POWER_SUPPLY_CAPACITY_LEVEL_FULL)
         /\ (status <> POWER_SUPPLY_STATUS_FULL -> soc <= 5 ->
             level = POWER_SUPPLY_CAPACITY_LEVEL_CRITICAL)
         /\ (status <> POWER_SUPPLY_STATUS_FULL -> 5 < soc <= 15 ->
             level = POWER_SUPPLY_CAPACITY_LEVEL_LOW)
         /\ (status <> POWER_SUPPLY_STATUS_FULL -> 15 < soc < 99 ->
             level = POWER_SUPPLY_CAPACITY_LEVEL_NORMAL)).
Proof.
  split.
  - intros e Hs. rewrite get_capacity_level_eq.
    rewrite (get_soc_err _ _ Hs). reflexivity.
  - intros raw Hs Hrange soc status level.
    assert (level
            = if status_eqb status POWER_SUPPLY_STATUS_FULL || (soc >=? 99)
              then POWER_SUPPLY_CAPACITY_LEVEL_FULL
              else if soc <=? 5 then POWER_SUPPLY_CAPACITY_LEVEL_CRITICAL
              else if soc <=? 15 then POWER_SUPPLY_CAPACITY_LEVEL_LOW
              else POWER_SUPPLY_CAPACITY_LEVEL_NORMAL) as ->.
    { unfold level. rewrite get_capacity_level_eq.
      rewrite (get_soc_ok _ _ Hs Hrange). cbn [fst snd].
      fold soc. fold status.
      pose proof (soc_percent_range raw Hrange) as Hpct. fold soc in Hpct.
      destruct (Z.ltb_spec soc 0); [lia | reflexivity]. }
    pose proof (status_eqb_eq status POWER_SUPPLY_STATUS_FULL) as Heqb.
    destruct (status_eqb status POWER_SUPPLY_STATUS_FULL);
      destruct (Z.geb_spec soc 99); destruct (Z.leb_spec soc 5);
      destruct (Z.leb_spec soc 15); cbn [orb];
      repeat split; intros;
      try reflexivity; try lia;
      try (exfalso; match goal with
                    | Hne : status <> _ |- _ => apply Hne, Heqb; reflexivity
                    end);
      try (match goal with
           | Hor : _ \/ _ |- _ =>
               destruct Hor as [Hfull | Hge];
               [apply Heqb in Hfull; discriminate | lia]
           end).
Qed.

(** Full by status at 3 %: the first read of the state of charge answers
    3 %, the reads made for the status answer a resting C-rate and 96 %;
    then 3 %, 10 % and 50 % on a steadily discharging chip, and a failed
    read. *)
Lemma get_capacity_level_classifies_witness :
  fst (max17048_get_capacity_level
         (Fixture.battery_on
            (Fixture.changing
               (Fixture.steady (IoOk 0) (IoOk 768) (IoOk 0))
               (Fixture.steady (IoOk 0) (IoOk 24576) (IoOk 0)))))
  = POWER_SUPPLY_CAPACITY_LEVEL_FULL
  /\ fst (max17048_get_capacity_level
            (Fixture.battery_on
               (Fixture.steady (IoOk 0) (IoOk 768) (IoOk 65516))))
     = POWER_SUPPLY_CAPACITY_LEVEL_CRITICAL
  /\ fst (max17048_get_capacity_level
            (Fixture.battery_on
               (Fixture.steady (IoOk 0) (IoOk 2560) (IoOk 65516))))
     = POWER_SUPPLY_CAPACITY_LEVEL_LOW
  /\ fst (max17048_get_capacity_level
            (Fixture.battery_on
               (Fixture.steady (IoOk 0) (IoOk 12800) (IoOk 65516))))
     = POWER_SUPPLY_CAPACITY_LEVEL_NORMAL
  /\ fst (max17048_get_capacity_level
            (Fixture.battery_on
               (Fixture.steady (IoOk 0) (IoErr 5) (IoOk 65516))))
     = POWER_SUPPLY_CAPACITY_LEVEL_UNKNOWN.
Proof.
  split; [| split; [| split; [| split]]].
  - destruct (get_capacity_level_classifies
                (Fixture.battery_on
                   (Fixture.changing
                      (Fixture.steady (IoOk 0) (IoOk 768) (IoOk 0))
                      (Fixture.steady (IoOk 0) (IoOk 24576) (IoOk 0)))))
      as [_ Hok].
    destruct (Hok 768 eq_refl) as (Hfull & _); [lia |].
    apply Hfull. left. reflexivity.
  - destruct (get_capacity_level_classifies
                (Fixture.battery_on
                   (Fixture.steady (IoOk 0) (IoOk 768) (IoOk 65516))))
      as [_ Hok].
    destruct (Hok 768 eq_refl) as (_ & Hcrit & _); [lia |].
    apply Hcrit; [discriminate | vm_compute; discriminate].
  - destruct (get_capacity_level_classifies
                (Fixture.battery_on
                   (Fixture.steady (IoOk 0) (IoOk 2560) (IoOk 65516))))
      as [_ Hok].
    destruct (Hok 2560 eq_refl) as (_ & _ & Hlow & _); [lia |].
    apply Hlow; [discriminate | vm_compute; split; [reflexivity | discriminate]].
  - destruct (get_capacity_level_classifies
                (Fixture.battery_on
                   (Fixture.steady (IoOk 0) (IoOk 12800) (IoOk 65516))))
      as [_ Hok].
    destruct (Hok 12800 eq_refl) as (_ & _ & _ & Hnormal); [lia |].
    apply Hnormal; [discriminate | vm_compute; split; reflexivity].
  - destruct (get_capacity_level_classifies
                (Fixture.battery_on
                   (Fixture.steady (IoOk 0) (IoErr 5) (IoOk 65516))))
      as [Herr _].
    apply (Herr 5%positive). reflexivity.
Defined.

(** ** Time to empty and time to full *)

Lemma time_to_empty_arith crate soc :
  -32768 <= crate < -10 ->
  0 <= soc <= 100 ->
  to_int (div_s64
            (to_s64 (to_s64 (MAX17048_TTE_CONST_NUM * soc)
                     * MAX17048_TTE_TUNING_FACTOR))
            (to_s64 (to_int (abs crate) * MAX17048_TTE_CONST_DEN)))
  = 225000 * soc * 8 / (Z.abs crate * 13).
Proof.
  intros Hc Hs.
  unfold MAX17048_TTE_CONST_NUM, MAX17048_TTE_TUNING_FACTOR,
    MAX17048_TTE_CONST_DEN, div_s64.
  rewrite abs_s16 by lia.
  rewrite (to_int_small (Z.abs crate)) by lia.
  rewrite (to_s64_small (225000 * soc)) by lia.
  rewrite (to_s64_small (225000 * soc * 8)) by lia.
  rewrite (to_s64_small (Z.abs crate * 13)) by lia.
  rewrite Z.quot_div_nonneg by lia.
  assert (0 <= 225000 * soc * 8 / (Z.abs crate * 13) <= 180000000) as Hq.
  { split.
    - apply Z.div_pos; lia.
    - apply Z.div_le_upper_bound; nia. }
  rewrite to_s64_small by lia.
  apply to_int_small. lia.
Qed.

Lemma time_to_full_arith crate soc :
  10 < crate < 32768 ->
  0 <= soc <= 100 ->
  to_int (div_s64
            (to_s64 (MAX17048_TTE_CONST_NUM * (100 - soc)))
            (to_s64 (crate * MAX17048_TTE_CONST_DEN)))
  = 225000 * (100 - soc) / (crate * 13).
Proof.
  intros Hc Hs.
  unfold MAX17048_TTE_CONST_NUM, MAX17048_TTE_CONST_DEN, div_s64.
  rewrite (to_s64_small (225000 * (100 - soc))) by lia.
  rewrite (to_s64_small (crate * 13)) by lia.
  rewrite Z.quot_div_nonneg by lia.
  assert (0 <= 225000 * (100 - soc) / (crate * 13) <= 22500000) as Hq.
  { split.
    - apply Z.div_pos; lia.
    - apply Z.div_le_upper_bound; nia. }
  rewrite to_s64_small by lia.
  apply to_int_small. lia.
Qed.

Section Estimates.

Variable ENODATA : Z.
Variable battery : max17048.

Lemma time_to_empty_crate_err val e :
  answer battery 0 MAX17048_CRATE_REG = IoErr e ->
  max17048_get_time_to_empty ENODATA val battery
  = ((Z.neg e, val), after_reads 1 battery).
Proof.
  intros Hc. unfold max17048_get_time_to_empty, bind.
  rewrite (get_crate_err _ _ _ Hc). reflexivity.
Qed.

Lemma time_to_empty_nodata val raw :
  answer battery 0 MAX17048_CRATE_REG = IoOk raw ->
  -10 <= to_s16 raw ->
  max17048_get_time_to_empty ENODATA val battery
  = ((- ENODATA, val), after_reads 1 battery).
Proof.
  intros Hc Hge. unfold max17048_get_time_to_empty, bind.
  rewrite (get_crate_ok _ _ _ Hc). cbn [nonzero Z.eqb negb].
  unfold MAX17048_TTE_RATE_THR. cbn [Z.opp].
  destruct (Z.geb_spec (to_s16 raw) (-10)); [reflexivity | lia].
Qed.

Lemma time_to_empty_soc_err val raw e :
  answer battery 0 MAX17048_CRATE_REG = IoOk raw ->
  to_s16 raw < -10 ->
  answer battery 1 MAX17048_SOC_REG = IoErr e ->
  max17048_get_time_to_empty ENODATA val battery
  = ((Z.neg e, val), after_reads 2 battery).
Proof.
  intros Hc Hlt Hs. unfold max17048_get_time_to_empty, bind.
  rewrite (get_crate_ok _ _ _ Hc). cbn [nonzero Z.eqb negb].
  unfold MAX17048_TTE_RATE_THR. cbn [Z.opp].
  destruct (Z.geb_spec (to_s16 raw) (-10)); [lia |].
  rewrite (get_soc_err (after_reads 1 battery) e Hs). reflexivity.
Qed.

Lemma time_to_empty_value val raw soc_raw :
  answer battery 0 MAX17048_CRATE_REG = IoOk raw ->
  to_s16 raw < -10 ->
  answer battery 1 MAX17048_SOC_REG = IoOk soc_raw ->
  0 <= soc_raw < 65536 ->
  max17048_get_time_to_empty ENODATA val battery
  = ((0, 225000 * Z.min (soc_raw / 256) 100 * 8 / (Z.abs (to_s16 raw) * 13)),
     after_reads 2 battery).
Proof.
  intros Hc Hlt Hs Hrange. unfold max17048_get_time_to_empty, bind.
  rewrite (get_crate_ok _ _ _ Hc). cbn [nonzero Z.eqb negb].
  unfold MAX17048_TTE_RATE_THR. cbn [Z.opp].
  destruct (Z.geb_spec (to_s16 raw) (-10)); [lia |].
  rewrite (get_soc_ok (after_reads 1 battery) soc_raw Hs Hrange).
  pose proof (soc_percent_range soc_raw Hrange) as Hpct.
  pose proof (to_s16_range raw) as Hcr.
  destruct (Z.ltb_spec (Z.min (soc_raw / 256) 100) 0); [lia |].
  unfold Ret. rewrite time_to_empty_arith by lia. reflexivity.
Qed.

Lemma time_to_full_crate_err val e :
  answer battery 0 MAX17048_CRATE_REG = IoErr e ->
  max17048_get_time_to_full ENODATA val battery
  = ((Z.neg e, val), after_reads 1 battery).
Proof.
  intros Hc. unfold max17048_get_time_to_full, bind.
  rewrite (get_crate_err _ _ _ Hc). reflexivity.
Qed.

Lemma time_to_full_nodata val raw :
  answer battery 0 MAX17048_CRATE_REG = IoOk raw ->
  to_s16 raw <= 10 ->
  max17048_get_time_to_full ENODATA val battery
  = ((- ENODATA, val), after_reads 1 battery).
Proof.
  intros Hc Hle. unfold max17048_get_time_to_full, bind.
  rewrite (get_crate_ok _ _ _ Hc). cbn [nonzero Z.eqb negb].
  unfold MAX17048_TTE_RATE_THR.
  destruct (Z.leb_spec (to_s16 raw) 10); [reflexivity | lia].
Qed.

Lemma time_to_full_soc_err val raw e :
  answer battery 0 MAX17048_CRATE_REG = IoOk raw ->
  10 < to_s16 raw ->
  answer battery 1 MAX17048_SOC_REG = IoErr e ->
  max17048_get_time_to_full ENODATA val battery
  = ((Z.neg e, val), after_reads 2 battery).
Proof.
  intros Hc Hgt Hs. unfold max17048_get_time_to_full, bind.
  rewrite (get_crate_ok _ _ _ Hc). cbn [nonzero Z.eqb negb].
  unfold MAX17048_TTE_RATE_THR.
  destruct (Z.leb_spec (to_s16 raw) 10); [lia |].
  rewrite (get_soc_err (after_reads 1 battery) e Hs). reflexivity.
Qed.

Lemma time_to_full_value val raw soc_raw :
  answer battery 0 MAX17048_CRATE_REG = IoOk raw ->
  10 < to_s16 raw ->
  answer battery 1 MAX17048_SOC_REG = IoOk soc_raw ->
  0 <= soc_raw < 65536 ->
  max17048_get_time_to_full ENODATA val battery
  = ((0, 225000 * (100 - Z.min (soc_raw / 256) 100) / (to_s16 raw * 13)),
     after_reads 2 battery).
Proof.
  intros Hc Hgt Hs Hrange. unfold max17048_get_time_to_full, bind.
  rewrite (get_crate_ok _ _ _ Hc). cbn [nonzero Z.eqb negb].
  unfold MAX17048_TTE_RATE_THR.
  destruct (Z.leb_spec (to_s16 raw) 10); [lia |].
  rewrite (get_soc_ok (after_reads 1 battery) soc_raw Hs Hrange).
  pose proof (soc_percent_range soc_raw Hrange) as Hpct.
  pose proof (to_s16_range raw) as Hcr.
  destruct (Z.ltb_spec (Z.min (soc_raw / 256) 100) 0); [lia |].
  unfold Ret. rewrite time_to_full_arith by lia. reflexivity.
Qed.

End Estimates.

(** C2, as the code has it: [max17048_get_time_to_empty] returns a value
    exactly when the C-rate is below -10, that is at most -11; from -10
    upward it reports NoData: it returns [-ENODATA] without reading the
    state of charge and leaves the output untouched, also through the
    property callback.  When defined, the value is
    [225000 * percent * 8 / (|crate| * 13)], floor division.  NoData is
    distinct from a value (its code is not 0) and from a transport error:
    a failed C-rate read, or a failed state-of-charge read after a C-rate
    below -10, returns the transport's own negative code, which is not
    [-ENODATA] unless the transport itself failed with errno ENODATA. *)
Theorem time_to_empty_defined ENODATA battery val :
  0 < ENODATA ->
  (forall raw,
      answer battery 0 MAX17048_CRATE_REG = IoOk raw ->
      (-10 <= to_s16 raw ->
       max17048_get_time_to_empty ENODATA val battery
       = ((- ENODATA, val), after_reads 1 battery)
       /\ forall EINVAL propval,
            fst (battery_get_property EINVAL ENODATA
                   POWER_SUPPLY_PROP_TIME_TO_EMPTY_NOW propval battery)
            = (- ENODATA, propval))
      /\ (forall soc_raw,
             answer battery 1 MAX17048_SOC_REG = IoOk soc_raw ->
             0 <= soc_raw < 65536 ->
             (to_s16 raw < -10 ->
              max17048_get_time_to_empty ENODATA val battery
              = ((0, 225000 * Z.min (soc_raw / 256) 100 * 8
                     / (Z.abs (to_s16 raw) * 13)),
                 after_reads 2 battery))
             /\ (fst (fst (max17048_get_time_to_empty ENODATA val battery))
                 = 0
                 <-> to_s16 raw < -10))
      /\ (forall e,
             to_s16 raw < -10 ->
             answer battery 1 MAX17048_SOC_REG = IoErr e ->
             max17048_get_time_to_empty ENODATA val battery
             = ((Z.neg e, val), after_reads 2 battery)
             /\ (Z.pos e <> ENODATA ->
                 fst (fst (max17048_get_time_to_empty ENODATA val battery))
                 <> - ENODATA)))
  /\ (forall e,
         answer battery 0 MAX17048_CRATE_REG = IoErr e ->
         max17048_get_time_to_empty ENODATA val battery
         = ((Z.neg e, val), after_reads 1 battery)
         /\ (Z.pos e <> ENODATA ->
             fst (fst (max17048_get_time_to_empty ENODATA val battery))
             <> - ENODATA)).
Proof.
  intros Hpos. split.
  - intros raw Hc. split; [| split].
    + intros Hge. split.
      * apply time_to_empty_nodata with (raw := raw); assumption.
      * intros EINVAL propval. unfold battery_get_property, bind.
        rewrite (time_to_empty_nodata ENODATA _ _ _ Hc Hge).
        destruct (Z.ltb_spec (- ENODATA) 0); [reflexivity | lia].
    + intros soc_raw Hs Hrange. split.
      * intros Hlt. apply time_to_empty_value; assumption.
      * destruct (Z_lt_le_dec (to_s16 raw) (-10)) as [Hlt | Hge].
        -- rewrite (time_to_empty_value ENODATA _ val _ _ Hc Hlt Hs Hrange).
           cbn [fst]. split; intros; [assumption | reflexivity].
        -- rewrite (time_to_empty_nodata ENODATA _ val _ Hc Hge).
           cbn [fst]. split; intros; lia.
    + intros e Hlt Hs.
      rewrite (time_to_empty_soc_err ENODATA _ val _ _ Hc Hlt Hs).
      split; [reflexivity |].
      cbn [fst]. intros Hne Heq. apply Hne. lia.
  - intros e Hc.
    rewrite (time_to_empty_crate_err ENODATA _ val _ Hc).
    split; [reflexivity |].
    cbn [fst]. intros Hne Heq. apply Hne. lia.
Qed.

(** crate = -20 at 50 % gives 225000*50*8/(20*13) = 346153 s; crate = -10
    gives [-ENODATA]; a C-rate read failing with EIO gives -5, which is
    not [-ENODATA]. *)
Lemma time_to_empty_defined_witness :
  max17048_get_time_to_empty 61 0
    (Fixture.battery_on (Fixture.steady (IoOk 0) (IoOk 12800) (IoOk 65516)))
  = ((0, 346153),
     after_reads 2
       (Fixture.battery_on
          (Fixture.steady (IoOk 0) (IoOk 12800) (IoOk 65516))))
  /\ max17048_get_time_to_empty 61 0
       (Fixture.battery_on
          (Fixture.steady (IoOk 0) (IoOk 12800) (IoOk 65526)))
     = ((-61, 0),
        after_reads 1
          (Fixture.battery_on
             (Fixture.steady (IoOk 0) (IoOk 12800) (IoOk 65526))))
  /\ (max17048_get_time_to_empty 61 0
        (Fixture.battery_on
           (Fixture.steady (IoOk 0) (IoOk 12800) (IoErr 5)))
      = ((-5, 0),
         after_reads 1
           (Fixture.battery_on
              (Fixture.steady (IoOk 0) (IoOk 12800) (IoErr 5))))
      /\ fst (fst (max17048_get_time_to_empty 61 0
                     (Fixture.battery_on
                        (Fixture.steady (IoOk 0) (IoOk 12800) (IoErr 5)))))
         <> -61).
Proof.
  split; [| split].
  - destruct (time_to_empty_defined 61
                (Fixture.battery_on
                   (Fixture.steady (IoOk 0) (IoOk 12800) (IoOk 65516)))
                0) as [Hok _]; [lia |].
    destruct (Hok 65516 eq_refl) as (_ & Hdef & _).
    destruct (Hdef 12800) as [Hval _]; [reflexivity | lia |].
    apply Hval. vm_compute. reflexivity.
  - destruct (time_to_empty_defined 61
                (Fixture.battery_on
                   (Fixture.steady (IoOk 0) (IoOk 12800) (IoOk 65526)))
                0) as [Hok _]; [lia |].
    destruct (Hok 65526 eq_refl) as (Hnodata & _).
    destruct Hnodata as [Hcode _]; [vm_compute; discriminate |].
    exact Hcode.
  - destruct (time_to_empty_defined 61
                (Fixture.battery_on
                   (Fixture.steady (IoOk 0) (IoOk 12800) (IoErr 5)))
                0) as [_ Herr]; [lia |].
    destruct (Herr 5%positive eq_refl) as [Hcode Hdistinct].
    split; [exact Hcode |].
    apply Hdistinct. discriminate.
Defined.

(** The one transport error that NoData cannot be told from: a C-rate
    read failing with errno ENODATA itself (61) returns the same code and
    leaves the output untouched as well. *)
Example time_to_empty_transport_enodata :
  fst (max17048_get_time_to_empty 61 7
         (Fixture.battery_on
            (Fixture.steady (IoOk 0) (IoOk 12800) (IoErr 61))))
  = fst (max17048_get_time_to_empty 61 7
           (Fixture.battery_on
              (Fixture.steady (IoOk 0) (IoOk 12800) (IoOk 65526)))).
Proof. reflexivity. Qed.

(** C2 as stated fails at crate = -10 (raw code 0xFFF6) and 50 %: the
    claim has a value there, the code returns [-ENODATA] (61 in the
    generic errno table). *)
Lemma time_to_empty_at_minus_10 :
  ~ (forall battery val raw soc_raw,
        answer battery 0 MAX17048_CRATE_REG = IoOk raw ->
        answer battery 1 MAX17048_SOC_REG = IoOk soc_raw ->
        0 <= soc_raw < 65536 ->
        (fst (fst (max17048_get_time_to_empty 61 val battery)) = 0
         <-> to_s16 raw <= -10)).
Proof.
  intros Hclaim.
  destruct (Hclaim
              (Fixture.battery_on
                 (Fixture.steady (IoOk 0) (IoOk 12800) (IoOk 65526)))
              0 65526 12800 eq_refl eq_refl ltac:(lia)) as [_ Hback].
  assert (to_s16 65526 <= -10) as Hle by (vm_compute; discriminate).
  specialize (Hback Hle). vm_compute in Hback. discriminate Hback.
Qed.

(** C3, as the code has it: when the C-rate read succeeds,
    [max17048_get_time_to_full] returns a value exactly when the C-rate is
    above +10, that is at least +11; up to +10 it returns [-ENODATA]
    without reading the state of charge and leaves the output untouched.
    When defined, the value is [225000 * (100 - percent) / (crate * 13)],
    floor division, without the factor 8 of the time to empty. *)
Theorem time_to_full_defined ENODATA battery val raw :
  0 < ENODATA ->
  answer battery 0 MAX17048_CRATE_REG = IoOk raw ->
  (to_s16 raw <= 10 ->
   max17048_get_time_to_full ENODATA val battery
   = ((- ENODATA, val), after_reads 1 battery))
  /\ (forall soc_raw,
         answer battery 1 MAX17048_SOC_REG = IoOk soc_raw ->
         0 <= soc_raw < 65536 ->
         (10 < to_s16 raw ->
          max17048_get_time_to_full ENODATA val battery
          = ((0, 225000 * (100 - Z.min (soc_raw / 256) 100)
                 / (to_s16 raw * 13)),
             after_reads 2 battery))
         /\ (fst (fst (max17048_get_time_to_full ENODATA val battery)) = 0
             <-> 10 < to_s16 raw)).
Proof.
  intros Hpos Hc. split.
  - intros Hle. apply time_to_full_nodata with (raw := raw); assumption.
  - intros soc_raw Hs Hrange. split.
    + intros Hgt. apply time_to_full_value; assumption.
    + destruct (Z_lt_le_dec 10 (to_s16 raw)) as [Hgt | Hle].
      * rewrite (time_to_full_value ENODATA _ val _ _ Hc Hgt Hs Hrange).
        cbn [fst]. split; intros; [assumption | reflexivity].
      * rewrite (time_to_full_nodata ENODATA _ val _ Hc Hle).
        cbn [fst]. split; intros; lia.
Qed.

(** crate = +20 at 50 % gives 225000*50/(20*13) = 43269 s; crate = +10
    gives [-ENODATA]. *)
Lemma time_to_full_defined_witness :
  max17048_get_time_to_full 61 0
    (Fixture.battery_on (Fixture.steady (IoOk 0) (IoOk 12800) (IoOk 20)))
  = ((0, 43269),
     after_reads 2
       (Fixture.battery_on (Fixture.steady (IoOk 0) (IoOk 12800) (IoOk 20))))
  /\ max17048_get_time_to_full 61 0
       (Fixture.battery_on (Fixture.steady (IoOk 0) (IoOk 12800) (IoOk 10)))
     = ((-61, 0),
        after_reads 1
          (Fixture.battery_on
             (Fixture.steady (IoOk 0) (IoOk 12800) (IoOk 10)))).
Proof.
  split.
  - destruct (time_to_full_defined 61
                (Fixture.battery_on
                   (Fixture.steady (IoOk 0) (IoOk 12800) (IoOk 20)))
                0 20) as [_ Hdef]; [lia | reflexivity |].
    destruct (Hdef 12800) as [Hval _]; [reflexivity | lia |].
    apply Hval. vm_compute. reflexivity.
  - destruct (time_to_full_defined 61
                (Fixture.battery_on
                   (Fixture.steady (IoOk 0) (IoOk 12800) (IoOk 10)))
                0 10) as [Hnodata _]; [lia | reflexivity |].
    apply Hnodata. vm_compute. discriminate.
Defined.

(** C3 as stated fails at crate = +10 and 50 %: the claim has a value
    there, the code returns [-ENODATA]. *)
Lemma time_to_full_at_plus_10 :
  ~ (forall battery val raw soc_raw,
        answer battery 0 MAX17048_CRATE_REG = IoOk raw ->
        answer battery 1 MAX17048_SOC_REG = IoOk soc_raw ->
        0 <= soc_raw < 65536 ->
        (fst (fst (max17048_get_time_to_full 61 val battery)) = 0
         <-> 10 <= to_s16 raw)).
Proof.
  intros Hclaim.
  destruct (Hclaim
              (Fixture.battery_on
                 (Fixture.steady (IoOk 0) (IoOk 12800) (IoOk 10)))
              0 10 12800 eq_refl eq_refl ltac:(lia)) as [_ Hback].
  assert (10 <= to_s16 10) as Hle by (vm_compute; discriminate).
  specialize (Hback Hle). vm_compute in Hback. discriminate Hback.
Qed.

(** ** Propagation of transport errors *)

Section Propagation.

Variables EINVAL ENODATA : Z.
Variable battery : max17048.
Variable val : power_supply_propval.

Local Abbreviation get_property := (battery_get_property EINVAL ENODATA).

Lemma get_current_crate_err v e :
  answer battery 0 MAX17048_CRATE_REG = IoErr e ->
  max17048_get_current v battery = ((Z.neg e, v), after_reads 1 battery).
Proof.
  intros Hc. unfold max17048_get_current, bind.
  rewrite (get_crate_err _ _ _ Hc). reflexivity.
Qed.

Lemma get_current_value v raw :
  answer battery 0 MAX17048_CRATE_REG = IoOk raw ->
  max17048_get_current v battery
  = ((0, to_int (div_s64
                   (to_s64 (to_s64 (charge_full_design_uah battery
                                    * to_s16 raw) * 52))
                   25000)),
     after_reads 1 battery).
Proof.
  intros Hc. unfold max17048_get_current, bind.
  rewrite (get_crate_ok _ _ _ Hc). reflexivity.
Qed.

(** With a design capacity that [max17048_probe] can leave, no conversion
    wraps: the current is [capacity * crate * 52 / 25000], truncated toward
    zero, and has the sign of the C-rate. *)
Lemma get_current_exact v raw :
  answer battery 0 MAX17048_CRATE_REG = IoOk raw ->
  1 <= charge_full_design_uah battery <= 19999000 ->
  fst (max17048_get_current v battery)
  = (0, Z.quot (charge_full_design_uah battery * to_s16 raw * 52) 25000).
Proof.
  intros Hc Hcharge. rewrite (get_current_value _ _ Hc). cbn [fst].
  pose proof (to_s16_range raw) as Hcr.
  set (charge := charge_full_design_uah battery) in *.
  set (crate := to_s16 raw) in *.
  assert (- (1363083264 * 25000) <= charge * crate * 52
          <= 1363083264 * 25000) as Hprod by nia.
  rewrite (to_s64_small (charge * crate)) by nia.
  rewrite (to_s64_small (charge * crate * 52)) by lia.
  pose proof (quot_25000_bounds _ 1363083264 ltac:(lia) Hprod) as Hq.
  unfold div_s64. rewrite to_s64_small by lia.
  rewrite to_int_small by lia. reflexivity.
Qed.

Lemma current_now_crate_err e :
  answer battery 0 MAX17048_CRATE_REG = IoErr e ->
  get_property POWER_SUPPLY_PROP_CURRENT_NOW val battery
  = ((Z.neg e, val), after_reads 1 battery).
Proof.
  intros Hc. unfold battery_get_property, bind.
  rewrite (get_current_crate_err _ _ Hc). reflexivity.
Qed.

Lemma time_to_empty_now_crate_err e :
  answer battery 0 MAX17048_CRATE_REG = IoErr e ->
  get_property POWER_SUPPLY_PROP_TIME_TO_EMPTY_NOW val battery
  = ((Z.neg e, val), after_reads 1 battery).
Proof.
  intros Hc. unfold battery_get_property, bind.
  rewrite (time_to_empty_crate_err _ _ _ _ Hc). reflexivity.
Qed.

Lemma time_to_full_now_crate_err e :
  answer battery 0 MAX17048_CRATE_REG = IoErr e ->
  get_property POWER_SUPPLY_PROP_TIME_TO_FULL_NOW val battery
  = ((Z.neg e, val), after_reads 1 battery).
Proof.
  intros Hc. unfold battery_get_property, bind.
  rewrite (time_to_full_crate_err _ _ _ _ Hc). reflexivity.
Qed.

Lemma time_to_empty_now_soc_err raw e :
  answer battery 0 MAX17048_CRATE_REG = IoOk raw ->
  to_s16 raw < -10 ->
  answer battery 1 MAX17048_SOC_REG = IoErr e ->
  get_property POWER_SUPPLY_PROP_TIME_TO_EMPTY_NOW val battery
  = ((Z.neg e, val), after_reads 2 battery).
Proof.
  intros Hc Hlt Hs. unfold battery_get_property, bind.
  rewrite (time_to_empty_soc_err _ _ _ _ _ Hc Hlt Hs). reflexivity.
Qed.

Lemma time_to_full_now_soc_err raw e :
  answer battery 0 MAX17048_CRATE_REG = IoOk raw ->
  10 < to_s16 raw ->
  answer battery 1 MAX17048_SOC_REG = IoErr e ->
  get_property POWER_SUPPLY_PROP_TIME_TO_FULL_NOW val battery
  = ((Z.neg e, val), after_reads 2 battery).
Proof.
  intros Hc Hgt Hs. unfold battery_get_property, bind.
  rewrite (time_to_full_soc_err _ _ _ _ _ Hc Hgt Hs). reflexivity.
Qed.

Lemma charge_now_soc_err e :
  answer battery 0 MAX17048_SOC_REG = IoErr e ->
  get_property POWER_SUPPLY_PROP_CHARGE_NOW val battery
  = ((Z.neg e, val), after_reads 1 battery).
Proof.
  intros Hs. unfold battery_get_property, bind.
  rewrite (get_soc_err _ _ Hs). reflexivity.
Qed.

Lemma energy_now_soc_err e :
  answer battery 0 MAX17048_SOC_REG = IoErr e ->
  get_property POWER_SUPPLY_PROP_ENERGY_NOW val battery
  = ((Z.neg e, val), after_reads 1 battery).
Proof.
  intros Hs. unfold battery_get_property, bind.
  rewrite (get_soc_err _ _ Hs). reflexivity.
Qed.

(** The voltage property reads the voltage register only. *)
Lemma voltage_now_ok raw :
  answer battery 0 MAX17048_VCELL_REG = IoOk raw ->
  0 <= raw < 65536 ->
  get_property POWER_SUPPLY_PROP_VOLTAGE_NOW val battery
  = ((0, Intval (raw * 625 / 8)), after_reads 1 battery).
Proof.
  intros Hv Hrange. unfold battery_get_property, bind.
  rewrite (get_vcell_ok _ _ Hv Hrange).
  assert (0 <= raw * 625 / 8) as Hnn by (apply Z.div_pos; lia).
  destruct (Z.ltb_spec (raw * 625 / 8) 0); [lia | reflexivity].
Qed.

End Propagation.

(** C7: a transport error on the C-rate or state-of-charge read makes each
    estimate that needs the register fail with the same error code and
    leave its output untouched: the current, the time to empty and the
    time to full on a failed C-rate read; the charge now and the energy
    now on a failed state-of-charge read; the time to empty and the time
    to full on a state-of-charge read that fails after a C-rate read that
    asks for it.  A voltage obtained before or after the failing read is
    the voltage of its own register. *)
Theorem transport_error_propagates EINVAL ENODATA battery val :
  (forall e,
      answer battery 0 MAX17048_CRATE_REG = IoErr e ->
      fst (battery_get_property EINVAL ENODATA
             POWER_SUPPLY_PROP_CURRENT_NOW val battery) = (Z.neg e, val)
      /\ fst (battery_get_property EINVAL ENODATA
                POWER_SUPPLY_PROP_TIME_TO_EMPTY_NOW val battery)
         = (Z.neg e, val)
      /\ fst (battery_get_property EINVAL ENODATA
                POWER_SUPPLY_PROP_TIME_TO_FULL_NOW val battery)
         = (Z.neg e, val))
  /\ (forall e,
         answer battery 0 MAX17048_SOC_REG = IoErr e ->
         fst (battery_get_property EINVAL ENODATA
                POWER_SUPPLY_PROP_CHARGE_NOW val battery) = (Z.neg e, val)
         /\ fst (battery_get_property EINVAL ENODATA
                   POWER_SUPPLY_PROP_ENERGY_NOW val battery)
            = (Z.neg e, val))
  /\ (forall raw e,
         answer battery 0 MAX17048_CRATE_REG = IoOk raw ->
         answer battery 1 MAX17048_SOC_REG = IoErr e ->
         (to_s16 raw < -10 ->
          fst (battery_get_property EINVAL ENODATA
                 POWER_SUPPLY_PROP_TIME_TO_EMPTY_NOW val battery)
          = (Z.neg e, val))
         /\ (10 < to_s16 raw ->
             fst (battery_get_property EINVAL ENODATA
                    POWER_SUPPLY_PROP_TIME_TO_FULL_NOW val battery)
             = (Z.neg e, val)))
  /\ (forall vraw e val',
         answer battery 0 MAX17048_VCELL_REG = IoOk vraw ->
         0 <= vraw < 65536 ->
         answer battery 1 MAX17048_CRATE_REG = IoErr e ->
         let voltage :=
           battery_get_property EINVAL ENODATA
             POWER_SUPPLY_PROP_VOLTAGE_NOW val battery in
         fst voltage = (0, Intval (vraw * 625 / 8))
         /\ fst (battery_get_property EINVAL ENODATA
                   POWER_SUPPLY_PROP_CURRENT_NOW val' (snd voltage))
            = (Z.neg e, val'))
  /\ (forall vraw e val',
         answer battery 0 MAX17048_CRATE_REG = IoErr e ->
         answer battery 1 MAX17048_VCELL_REG = IoOk vraw ->
         0 <= vraw < 65536 ->
         let current :=
           battery_get_property EINVAL ENODATA
             POWER_SUPPLY_PROP_CURRENT_NOW val battery in
         fst current = (Z.neg e, val)
         /\ fst (battery_get_property EINVAL ENODATA
                   POWER_SUPPLY_PROP_VOLTAGE_NOW val' (snd current))
            = (0, Intval (vraw * 625 / 8))).
Proof.
  split; [| split; [| split; [| split]]].
  - intros e Hc.
    rewrite (current_now_crate_err EINVAL ENODATA _ val _ Hc).
    rewrite (time_to_empty_now_crate_err EINVAL ENODATA _ val _ Hc).
    rewrite (time_to_full_now_crate_err EINVAL ENODATA _ val _ Hc).
    auto.
  - intros e Hs.
    rewrite (charge_now_soc_err EINVAL ENODATA _ val _ Hs).
    rewrite (energy_now_soc_err EINVAL ENODATA _ val _ Hs).
    auto.
  - intros raw e Hc Hs. split.
    + intros Hlt.
      rewrite (time_to_empty_now_soc_err EINVAL ENODATA _ val _ _ Hc Hlt Hs).
      reflexivity.
    + intros Hgt.
      rewrite (time_to_full_now_soc_err EINVAL ENODATA _ val _ _ Hc Hgt Hs).
      reflexivity.
  - intros vraw e val' Hv Hrange Hc voltage. unfold voltage.
    rewrite (voltage_now_ok EINVAL ENODATA _ val _ Hv Hrange). cbn [fst snd].
    rewrite (current_now_crate_err EINVAL ENODATA (after_reads 1 battery)
               val' e Hc).
    auto.
  - intros vraw e val' Hc Hv Hrange current. unfold current.
    rewrite (current_now_crate_err EINVAL ENODATA _ val _ Hc). cbn [fst snd].
    rewrite (voltage_now_ok EINVAL ENODATA (after_reads 1 battery)
               val' vraw Hv Hrange).
    auto.
Qed.

(** A chip whose C-rate and state-of-charge registers fail with EIO (5)
    and EREMOTEIO (121) while the voltage register answers 4.0 V. *)
Lemma transport_error_propagates_witness :
  let battery :=
    Fixture.battery_on (Fixture.steady (IoOk 51200) (IoErr 121) (IoErr 5)) in
  fst (battery_get_property 22 61 POWER_SUPPLY_PROP_CURRENT_NOW
         (Intval 7) battery) = (-5, Intval 7)
  /\ fst (battery_get_property 22 61 POWER_SUPPLY_PROP_CHARGE_NOW
            (Intval 7) battery) = (-121, Intval 7)
  /\ fst (battery_get_property 22 61 POWER_SUPPLY_PROP_VOLTAGE_NOW
            (Intval 7) battery) = (0, Intval 4000000)
  /\ fst (battery_get_property 22 61 POWER_SUPPLY_PROP_TIME_TO_EMPTY_NOW
            (Intval 7)
            (Fixture.battery_on
               (Fixture.steady (IoOk 51200) (IoErr 121) (IoOk 65516))))
     = (-121, Intval 7).
Proof.
  intros battery.
  destruct (transport_error_propagates 22 61 battery (Intval 7))
    as (Hcrate & Hsoc & _ & Hvolt & _).
  destruct (Hcrate 5%positive eq_refl) as (Hcurrent & _).
  destruct (Hsoc 121%positive eq_refl) as (Hcharge & _).
  destruct (Hvolt 51200 5%positive (Intval 7) eq_refl ltac:(lia) eq_refl)
    as (Hvoltage & _).
  destruct (transport_error_propagates 22 61
              (Fixture.battery_on
                 (Fixture.steady (IoOk 51200) (IoErr 121) (IoOk 65516)))
              (Intval 7))
    as (_ & _ & Hlate & _).
  destruct (Hlate 65516 121%positive eq_refl eq_refl) as (Hempty & _).
  split; [exact Hcurrent | split; [exact Hcharge | split; [exact Hvoltage |]]].
  apply Hempty. vm_compute. reflexivity.
Defined.

(** ** Design capacity and energy *)

Section ProbeFacts.

Variable msecs_to_jiffies : Z -> Z.
Variable client : i2c_client.
Variable map : struct_regmap.

(** The firmware answers [u32] values. *)
Hypothesis fwnode_u32 :
  forall name v, fwnode (dev client) name = IoOk v -> 0 <= v < 4294967296.

Lemma probe_charge_bounds :
  1 <= charge_full_design_uah (max17048_probe msecs_to_jiffies client map)
    <= 19999000.
Proof.
  unfold max17048_probe, device_property_read_u32.
  destruct (fwnode (dev client) "charge-full-design-microamp-hours")
    as [v | e] eqn:Hcharge.
  - apply fwnode_u32 in Hcharge.
    cbn [nonzero Z.eqb negb].
    unfold MAX17048_MAX_CAP_UAH, MAX17048_DEFAULT_CAP_UAH.
    destruct (Z.gtb_spec v 10000000) as [Hgt | Hle].
    + destruct (fwnode (dev client) "energy-full-design-microwatt-hours");
        simpl; lia.
    + destruct (Z.eqb_spec v 0) as [-> | Hnz];
        destruct (fwnode (dev client) "energy-full-design-microwatt-hours");
        simpl; lia.
  - cbn [nonzero Z.eqb negb Z.gtb Z.compare].
    unfold MAX17048_DEFAULT_CAP_UAH.
    destruct (fwnode (dev client) "battery-capacity") as [mah | e'] eqn:Hmah.
    + cbn [Z.eqb].
      destruct (Z.gtb_spec mah 0) as [Hpos | Hnpos];
        destruct (Z.ltb_spec mah 20000) as [Hlt | Hnlt]; cbn [andb];
        try (destruct (fwnode (dev client)
                         "energy-full-design-microwatt-hours");
             simpl; lia).
      rewrite to_u32_small by lia.
      destruct (Z.eqb_spec (mah * 1000) 0) as [Hz | Hnz]; [lia |].
      destruct (fwnode (dev client) "energy-full-design-microwatt-hours");
        simpl; lia.
    + cbn [Z.eqb].
      destruct (fwnode (dev client) "energy-full-design-microwatt-hours");
        simpl; lia.
Qed.

(** With the microamp-hour property present the capacity is clamped. *)
Lemma probe_charge_explicit v :
  fwnode (dev client) "charge-full-design-microamp-hours" = IoOk v ->
  charge_full_design_uah (max17048_probe msecs_to_jiffies client map)
  = (if v =? 0 then 5000000 else Z.min v 10000000).
Proof.
  intros Hcharge. pose proof (fwnode_u32 _ _ Hcharge) as Hv.
  unfold max17048_probe, device_property_read_u32. rewrite Hcharge.
  cbn [nonzero Z.eqb negb].
  unfold MAX17048_MAX_CAP_UAH, MAX17048_DEFAULT_CAP_UAH.
  destruct (Z.gtb_spec v 10000000) as [Hgt | Hle].
  - destruct (Z.eqb_spec v 0); [lia |].
    destruct (fwnode (dev client) "energy-full-design-microwatt-hours");
      simpl; lia.
  - destruct (Z.eqb_spec v 0) as [-> | Hnz];
      destruct (fwnode (dev client) "energy-full-design-microwatt-hours");
      simpl; lia.
Qed.

(** Without it, a legacy capacity in milliamp-hours strictly between 0 and
    20000 is taken times 1000, after the clamp. *)
Lemma probe_charge_legacy e mah :
  fwnode (dev client) "charge-full-design-microamp-hours" = IoErr e ->
  fwnode (dev client) "battery-capacity" = IoOk mah ->
  0 < mah < 20000 ->
  charge_full_design_uah (max17048_probe msecs_to_jiffies client map)
  = mah * 1000.
Proof.
  intros Hcharge Hmah Hrange.
  unfold max17048_probe, device_property_read_u32. rewrite Hcharge, Hmah.
  cbn [nonzero Z.eqb negb Z.gtb Z.compare].
  unfold MAX17048_DEFAULT_CAP_UAH.
  destruct (Z.gtb_spec mah 0); [| lia].
  destruct (Z.ltb_spec mah 20000); [| lia]. cbn [andb].
  rewrite to_u32_small by lia.
  destruct (Z.eqb_spec (mah * 1000) 0); [lia |].
  destruct (fwnode (dev client) "energy-full-design-microwatt-hours");
    simpl; reflexivity.
Qed.

End ProbeFacts.

Lemma derived_energy_bounds charge :
  1 <= charge <= 19999000 ->
  3 <= to_u32 (div_u64 (to_u64 (charge * 37)) 10) <= 73996300.
Proof.
  intros H. unfold div_u64, to_u64.
  rewrite Z.mod_small by lia.
  assert (3 <= charge * 37 / 10 <= 73996300) as Hq.
  { split.
    - apply Z.div_le_lower_bound; lia.
    - apply Z.div_le_upper_bound; lia. }
  rewrite to_u32_small by lia. exact Hq.
Qed.

(** The design energy is the microwatt-hour property when present and not
    zero, and 3.7 times the design capacity otherwise, clamped last. *)
Lemma probe_energy_eq msecs_to_jiffies client map :
  energy_full_design_uwh (max17048_probe msecs_to_jiffies client map)
  = (let charge :=
       charge_full_design_uah (max17048_probe msecs_to_jiffies client map) in
     let derived := to_u32 (div_u64 (to_u64 (charge * 37)) 10) in
     let energy :=
       match fwnode (dev client) "energy-full-design-microwatt-hours" with
       | IoOk v => if v =? 0 then derived else v
       | IoErr _ => derived
       end in
     if energy >? MAX17048_MAX_ENERGY_UWH then MAX17048_MAX_ENERGY_UWH
     else energy).
Proof.
  unfold max17048_probe, device_property_read_u32.
  destruct (fwnode (dev client) "charge-full-design-microamp-hours");
    destruct (fwnode (dev client) "battery-capacity");
    destruct (fwnode (dev client) "energy-full-design-microwatt-hours");
    cbn [nonzero Z.eqb negb orb energy_full_design_uwh charge_full_design_uah];
    reflexivity.
Qed.

(** The design energy always ends in [1, 18500000]. *)
Lemma probe_energy_bounds msecs_to_jiffies client map :
  (forall name v, fwnode (dev client) name = IoOk v -> 0 <= v < 4294967296) ->
  1 <= energy_full_design_uwh (max17048_probe msecs_to_jiffies client map)
    <= 18500000.
Proof.
  intros Hu32. rewrite probe_energy_eq. cbv zeta.
  pose proof (probe_charge_bounds msecs_to_jiffies client map Hu32) as Hcharge.
  pose proof (derived_energy_bounds _ Hcharge) as Hderived.
  unfold MAX17048_MAX_ENERGY_UWH.
  destruct (fwnode (dev client) "energy-full-design-microwatt-hours")
    as [v | e] eqn:Henergy.
  - apply Hu32 in Henergy.
    destruct (Z.eqb_spec v 0) as [Hz | Hnz].
    + match goal with
      | |- context [if ?x >? 18500000 then _ else _] =>
          destruct (Z.gtb_spec x 18500000); lia
      end.
    + destruct (Z.gtb_spec v 18500000); lia.
  - match goal with
    | |- context [if ?x >? 18500000 then _ else _] =>
        destruct (Z.gtb_spec x 18500000); lia
    end.
Qed.

(** C1 fails on the legacy path: with no microamp-hour property and
    [battery-capacity = 15000] (mAh), [max17048_probe] leaves a design
    capacity of 15000000 uAh, above [MAX17048_MAX_CAP_UAH]; the clamp to
    the maximum runs before the fallback assigns.  The energy is clamped
    to 18500000 uWh all the same. *)
Theorem probe_legacy_capacity_not_clamped msecs_to_jiffies map :
  let drv :=
    max17048_probe msecs_to_jiffies
      (Fixture.client_of (Fixture.node None (Some 15000) None)) map in
  charge_full_design_uah drv = 15000000
  /\ MAX17048_MAX_CAP_UAH < charge_full_design_uah drv
  /\ energy_full_design_uwh drv = 18500000.
Proof.
  cbv zeta. split; [| split].
  - reflexivity.
  - reflexivity.
  - reflexivity.
Qed.

(** The microamp-hour property is clamped: 15000000 uAh becomes 10000000
    uAh, and the derived energy 18500000 uWh. *)
Example probe_explicit_capacity_clamped msecs_to_jiffies map :
  let drv :=
    max17048_probe msecs_to_jiffies
      (Fixture.client_of (Fixture.node (Some 15000000) None None)) map in
  charge_full_design_uah drv = 10000000
  /\ energy_full_design_uwh drv = 18500000.
Proof. cbv zeta. split; reflexivity. Qed.

(** Nothing configured: 5000000 uAh and 18500000 uWh. *)
Example probe_default_capacity msecs_to_jiffies map :
  let drv :=
    max17048_probe msecs_to_jiffies
      (Fixture.client_of (Fixture.node None None None)) map in
  charge_full_design_uah drv = 5000000
  /\ energy_full_design_uwh drv = 18500000.
Proof. cbv zeta. split; reflexivity. Qed.

(** ** Notifications of the work pass and the interrupt handler *)

Lemma owed_work psy : owed psy max17048_work = 1%nat.
Proof. destruct psy; reflexivity. Qed.

Lemma owed_irq_handler psy : owed psy max17048_irq_handler = 1%nat.
Proof. destruct psy; reflexivity. Qed.

(** A statement moves a notification from the owed ones to the made ones,
    or touches neither. *)
Lemma exec_stmt_changed s k psy :
  (changed (exec_stmt s k) psy = changed k psy + owed psy [s])%nat
  /\ work_rest (exec_stmt s k) = work_rest k
  /\ irq_rest (exec_stmt s k) = irq_rest k.
Proof.
  destruct s as [reg | p |]; cbn [exec_stmt owed changed work_rest irq_rest].
  - repeat split. lia.
  - repeat split. destruct psy, p; cbn [power_supply_eqb]; lia.
  - repeat split. lia.
Qed.

Lemma owed_cons psy s rest :
  owed psy (s :: rest) = (owed psy [s] + owed psy rest)%nat.
Proof.
  destruct s as [reg | p |]; cbn [owed]; try reflexivity.
  destruct (power_supply_eqb psy p); reflexivity.
Qed.

Lemma step_conserves a k k' psy :
  step a k = Some k' ->
  (changed k' psy + owed psy (work_rest k') + owed psy (irq_rest k')
   = changed k psy + owed psy (work_rest k) + owed psy (irq_rest k)
     + trigger_count a)%nat.
Proof.
  destruct a; cbn [step trigger_count].
  - destruct (timer k); [| discriminate].
    destruct (work_rest k) eqn:Hw; [| discriminate].
    intros [= <-]. cbn [changed work_rest irq_rest].
    rewrite owed_work. cbn [owed]. lia.
  - destruct (irq_rest k) eqn:Hi; [| discriminate].
    intros [= <-]. cbn [changed work_rest irq_rest].
    rewrite owed_irq_handler. cbn [owed]. lia.
  - destruct (work_rest k) as [| s rest] eqn:Hw; [discriminate |].
    intros [= <-].
    destruct (exec_stmt_changed s
                {| drv := drv k; changed := changed k; timer := timer k;
                   work_rest := rest; irq_rest := irq_rest k |} psy)
      as (-> & -> & ->).
    cbn [changed work_rest irq_rest]. rewrite (owed_cons psy s rest). lia.
  - destruct (irq_rest k) as [| s rest] eqn:Hi; [discriminate |].
    intros [= <-].
    destruct (exec_stmt_changed s
                {| drv := drv k; changed := changed k; timer := timer k;
                   work_rest := work_rest k; irq_rest := rest |} psy)
      as (-> & -> & ->).
    cbn [changed work_rest irq_rest]. rewrite (owed_cons psy s rest). lia.
Qed.

Lemma triggers_cons a schedule :
  triggers (a :: schedule) = (trigger_count a + triggers schedule)%nat.
Proof. destruct a; reflexivity. Qed.

Lemma run_conserves schedule :
  forall k k' psy,
    run schedule k = Some k' ->
    (changed k' psy + owed psy (work_rest k') + owed psy (irq_rest k')
     = changed k psy + owed psy (work_rest k) + owed psy (irq_rest k)
       + triggers schedule)%nat.
Proof.
  induction schedule as [| a schedule IH]; intros k k' psy Hrun.
  - cbn [run] in Hrun. injection Hrun as <-. cbn [triggers]. lia.
  - cbn [run] in Hrun.
    destruct (step a k) as [k1 |] eqn:Hstep; [| discriminate].
    rewrite (IH _ _ psy Hrun), (step_conserves _ _ _ psy Hstep).
    rewrite triggers_cons. lia.
Qed.

Lemma idle_rests k : idle k = true -> work_rest k = [] /\ irq_rest k = [].
Proof.
  unfold idle. destruct (work_rest k), (irq_rest k); intros H;
    try discriminate; split; reflexivity.
Qed.

(** An interrupt handler that is not running handles an alert completely,
    whatever the work pass is doing. *)
Lemma alert_handled k :
  irq_rest k = [] ->
  exists k',
    run [Alert; Irq_step; Irq_step; Irq_step] k = Some k'
    /\ work_rest k' = work_rest k
    /\ irq_rest k' = []
    /\ forall psy, changed k' psy = S (changed k psy).
Proof.
  intros Hi. cbn [run step]. rewrite Hi.
  cbn [irq_rest max17048_irq_handler exec_stmt drv changed timer work_rest].
  eexists. split; [reflexivity |].
  cbn [work_rest irq_rest changed]. repeat split.
  intros psy. destruct psy; reflexivity.
Qed.

(** C9, as the code has it: the driver keeps no in-flight state and drops
    no trigger.  An alert whose handler is not already running is handled
    completely, with one [power_supply_changed] for the battery and one
    for the AC adapter, also while a work pass is in flight; and over any
    schedule that starts and ends with nothing in flight, each supply is
    notified once per trigger. *)
Theorem every_trigger_notifies :
  (forall k,
      irq_rest k = [] ->
      exists k',
        run [Alert; Irq_step; Irq_step; Irq_step] k = Some k'
        /\ work_rest k' = work_rest k
        /\ irq_rest k' = []
        /\ forall psy, changed k' psy = S (changed k psy))
  /\ (forall schedule k k' psy,
         idle k = true ->
         run schedule k = Some k' ->
         idle k' = true ->
         changed k' psy = (changed k psy + triggers schedule)%nat).
Proof.
  split.
  - exact alert_handled.
  - intros schedule k k' psy Hidle Hrun Hidle'.
    pose proof (run_conserves schedule k k' psy Hrun) as Hcons.
    destruct (idle_rests _ Hidle) as [Hw Hi].
    destruct (idle_rests _ Hidle') as [Hw' Hi'].
    rewrite Hw, Hi, Hw', Hi' in Hcons. cbn [owed] in Hcons. lia.
Qed.

(** One tick and two alerts that arrive while its pass is in flight: three
    notifications of the battery. *)
Lemma every_trigger_notifies_witness :
  let k0 :=
    after_probe
      (Fixture.battery_on (Fixture.steady (IoOk 0) (IoOk 12800) (IoOk 0))) in
  exists k',
    run [Tick; Work_step;
         Alert; Irq_step; Irq_step; Irq_step;
         Alert; Irq_step; Irq_step; Irq_step;
         Work_step; Work_step] k0 = Some k'
    /\ changed k' Battery = 3%nat.
Proof.
  intros k0. eexists. split; [vm_compute; reflexivity |].
  refine (eq_trans
            (proj2 every_trigger_notifies
               [Tick; Work_step;
                Alert; Irq_step; Irq_step; Irq_step;
                Alert; Irq_step; Irq_step; Irq_step;
                Work_step; Work_step] k0 _ Battery _ _ _) _).
  - reflexivity.
  - vm_compute. reflexivity.
  - reflexivity.
  - reflexivity.
Defined.

(** C9 as stated fails: after a tick has started a pass (one statement
    run), two alerts handled before the pass ends leave the battery
    notified twice more than the pass alone does, not once more. *)
Lemma two_alerts_in_flight_notify_twice :
  ~ (forall k0 k k_pass k_alerts,
        idle k0 = true ->
        run [Tick; Work_step] k0 = Some k ->
        work_in_flight k = true ->
        run [Work_step; Work_step] k = Some k_pass ->
        run [Alert; Irq_step; Irq_step; Irq_step;
             Alert; Irq_step; Irq_step; Irq_step;
             Work_step; Work_step] k = Some k_alerts ->
        changed k_alerts Battery = (changed k_pass Battery + 1)%nat).
Proof.
  intros Hclaim.
  pose (k0 := after_probe
                (Fixture.battery_on
                   (Fixture.steady (IoOk 0) (IoOk 12800) (IoOk 0)))).
  destruct (run [Tick; Work_step] k0) as [k |] eqn:Hk;
    [| vm_compute in Hk; discriminate Hk].
  destruct (run [Work_step; Work_step] k) as [k_pass |] eqn:Hpass.
  2:{ vm_compute in Hk. injection Hk as <-.
      vm_compute in Hpass. discriminate Hpass. }
  destruct (run [Alert; Irq_step; Irq_step; Irq_step;
                 Alert; Irq_step; Irq_step; Irq_step;
                 Work_step; Work_step] k) as [k_alerts |] eqn:Halerts.
  2:{ vm_compute in Hk. injection Hk as <-.
      vm_compute in Halerts. discriminate Halerts. }
  assert (work_in_flight k = true) as Hflight.
  { vm_compute in Hk. injection Hk as <-. reflexivity. }
  specialize (Hclaim k0 k k_pass k_alerts eq_refl Hk Hflight Hpass Halerts).
  vm_compute in Hk. injection Hk as <-.
  vm_compute in Hpass. injection Hpass as <-.
  vm_compute in Halerts. injection Halerts as <-.
  vm_compute in Hclaim. discriminate Hclaim.
Qed.

(** * Further properties of the driver *)

(** ** Raw conversions *)

(** X1: for every 16-bit code of the C-rate register,
    [max17048_get_crate] succeeds with the two's-complement reading of the
    code: the code itself below 0x8000 and the code minus 65536 from there
    on, a value in [-32768, 32767] whose low 16 bits are the code again. *)
Theorem get_crate_sign_extends battery crate raw :
  answer battery 0 MAX17048_CRATE_REG = IoOk raw ->
  0 <= raw < 65536 ->
  exists value,
    fst (max17048_get_crate crate battery) = (0, value)
    /\ value = (if raw <? 32768 then raw else raw - 65536)
    /\ -32768 <= value < 32768
    /\ value mod 65536 = raw.
Proof.
  intros Hc Hrange. exists (to_s16 raw).
  rewrite (get_crate_ok _ crate _ Hc). cbn [fst].
  assert (to_s16 raw = if raw <? 32768 then raw else raw - 65536) as Heq.
  { unfold to_s16. rewrite Z.mod_small by lia. reflexivity. }
  split; [reflexivity | split; [exact Heq | split]].
  - apply to_s16_range.
  - rewrite Heq. destruct (Z.ltb_spec raw 32768).
    + apply Z.mod_small. lia.
    + symmetry. apply Z.mod_unique with (q := -1); lia.
Qed.

Lemma get_crate_sign_extends_witness :
  exists value,
    fst (max17048_get_crate 0
           (Fixture.battery_on
              (Fixture.steady (IoOk 0) (IoOk 0) (IoOk 65526))))
    = (0, value)
    /\ value = -10.
Proof.
  destruct (get_crate_sign_extends
              (Fixture.battery_on
                 (Fixture.steady (IoOk 0) (IoOk 0) (IoOk 65526)))
              0 65526 eq_refl ltac:(lia))
    as (value & Hfst & Hval & _).
  exists value. split; [exact Hfst | exact Hval].
Defined.

(** X2: the voltage is monotone in the raw code, lies between 0 and
    5119921 uV, and two consecutive codes are 78 or 79 uV apart. *)
Theorem get_vcell_monotone b1 b2 raw1 raw2 :
  answer b1 0 MAX17048_VCELL_REG = IoOk raw1 ->
  answer b2 0 MAX17048_VCELL_REG = IoOk raw2 ->
  0 <= raw1 -> raw1 <= raw2 -> raw2 < 65536 ->
  0 <= fst (max17048_get_vcell b1)
  /\ fst (max17048_get_vcell b1) <= fst (max17048_get_vcell b2)
  /\ fst (max17048_get_vcell b2) <= 5119921
  /\ (raw2 = raw1 + 1 ->
      78 <= fst (max17048_get_vcell b2) - fst (max17048_get_vcell b1) <= 79).
Proof.
  intros H1 H2 Hlo Hle Hhi.
  rewrite (get_vcell_ok b1 raw1 H1) by lia.
  rewrite (get_vcell_ok b2 raw2 H2) by lia.
  cbn [fst].
  split; [apply Z.div_pos; lia | split; [| split]].
  - apply Z.div_le_mono; lia.
  - transitivity (65535 * 625 / 8);
      [apply Z.div_le_mono; lia | vm_compute; discriminate].
  - intros ->.
    pose proof (Z.div_mod (raw1 * 625) 8 ltac:(lia)) as Hd1.
    pose proof (Z.mod_pos_bound (raw1 * 625) 8 ltac:(lia)) as Hm1.
    pose proof (Z.div_mod ((raw1 + 1) * 625) 8 ltac:(lia)) as Hd2.
    pose proof (Z.mod_pos_bound ((raw1 + 1) * 625) 8 ltac:(lia)) as Hm2.
    lia.
Qed.

Lemma get_vcell_monotone_witness :
  78 <= fst (max17048_get_vcell
               (Fixture.battery_on
                  (Fixture.steady (IoOk 51201) (IoOk 0) (IoOk 0))))
        - fst (max17048_get_vcell
                 (Fixture.battery_on
                    (Fixture.steady (IoOk 51200) (IoOk 0) (IoOk 0))))
     <= 79.
Proof.
  apply (get_vcell_monotone
           (Fixture.battery_on (Fixture.steady (IoOk 51200) (IoOk 0) (IoOk 0)))
           (Fixture.battery_on (Fixture.steady (IoOk 51201) (IoOk 0) (IoOk 0)))
           51200 51201);
    [reflexivity | reflexivity | lia | lia | lia | reflexivity].
Defined.

(** X3: when the chip answers 16-bit codes, the integer that
    [max17048_get_soc] and [max17048_get_vcell] return is negative exactly
    when the read failed, so the callers' test [ret < 0] never takes a
    value for an error or an error for a value. *)
Theorem negative_return_means_failure battery :
  (forall reg raw, answer battery 0 reg = IoOk raw -> 0 <= raw < 65536) ->
  (fst (max17048_get_soc battery) < 0
   <-> exists e, answer battery 0 MAX17048_SOC_REG = IoErr e)
  /\ (fst (max17048_get_vcell battery) < 0
      <-> exists e, answer battery 0 MAX17048_VCELL_REG = IoErr e).
Proof.
  intros Hwf. split.
  - destruct (answer battery 0 MAX17048_SOC_REG) as [raw | e] eqn:Hs.
    + rewrite (get_soc_ok _ _ Hs (Hwf _ _ Hs)). cbn [fst].
      pose proof (soc_percent_range raw (Hwf _ _ Hs)).
      split; [lia | intros [e He]; discriminate He].
    + rewrite (get_soc_err _ _ Hs). cbn [fst].
      split; [intros _; exists e; reflexivity | intros _; lia].
  - destruct (answer battery 0 MAX17048_VCELL_REG) as [raw | e] eqn:Hv.
    + rewrite (get_vcell_ok _ _ Hv (Hwf _ _ Hv)). cbn [fst].
      assert (0 <= raw * 625 / 8)
        by (apply Z.div_pos; [pose proof (Hwf _ _ Hv) |]; lia).
      split; [lia | intros [e He]; discriminate He].
    + rewrite (get_vcell_err _ _ Hv). cbn [fst].
      split; [intros _; exists e; reflexivity | intros _; lia].
Qed.

Lemma negative_return_means_failure_witness :
  fst (max17048_get_soc
         (Fixture.battery_on
            (Fixture.steady (IoOk 65535) (IoErr 5) (IoOk 0)))) < 0
  /\ ~ fst (max17048_get_vcell
              (Fixture.battery_on
                 (Fixture.steady (IoOk 65535) (IoErr 5) (IoOk 0)))) < 0.
Proof.
  destruct (negative_return_means_failure
              (Fixture.battery_on
                 (Fixture.steady (IoOk 65535) (IoErr 5) (IoOk 0))))
    as [Hsoc Hvcell].
  - intros reg raw. unfold answer, Fixture.battery_on, Fixture.steady.
    cbn [regmap chip reads Nat.add].
    destruct (reg =? MAX17048_VCELL_REG);
      [| destruct (reg =? MAX17048_SOC_REG);
         [| destruct (reg =? MAX17048_CRATE_REG)]];
      intros Hans; try discriminate Hans;
      injection Hans as Hraw; lia.
  - split.
    + apply Hsoc. exists 5%positive. reflexivity.
    + intros Hneg. apply Hvcell in Hneg. destruct Hneg as [e He].
      discriminate He.
Defined.

(** ** Current and time estimates *)

(** X4: with a design capacity that [max17048_probe] can leave (1 to
    19999000 uAh), [max17048_get_current] wraps in no conversion: the
    current is [capacity * crate * 52 / 25000] truncated toward zero, at
    most 1363083264 uA in magnitude, not negative while charging, not
    positive while discharging, and opposite C-rates give opposite
    currents. *)
Theorem get_current_sign battery v raw :
  answer battery 0 MAX17048_CRATE_REG = IoOk raw ->
  1 <= charge_full_design_uah battery <= 19999000 ->
  exists current,
    fst (max17048_get_current v battery) = (0, current)
    /\ current
       = Z.quot (charge_full_design_uah battery * to_s16 raw * 52) 25000
    /\ -1363083264 <= current <= 1363083264
    /\ (0 <= to_s16 raw -> 0 <= current)
    /\ (to_s16 raw <= 0 -> current <= 0)
    /\ (forall battery2 v2 raw2,
           answer battery2 0 MAX17048_CRATE_REG = IoOk raw2 ->
           charge_full_design_uah battery2 = charge_full_design_uah battery ->
           to_s16 raw2 = - to_s16 raw ->
           fst (max17048_get_current v2 battery2) = (0, - current)).
Proof.
  intros Hc Hcharge.
  exists (Z.quot (charge_full_design_uah battery * to_s16 raw * 52) 25000).
  pose proof (to_s16_range raw) as Hcr.
  split; [apply get_current_exact; assumption | split; [reflexivity |]].
  split; [| split; [| split]].
  - apply (quot_25000_bounds _ 1363083264); [lia | nia].
  - intros Hpos. apply Z.quot_pos; nia.
  - intros Hneg.
    rewrite <- (Z.quot_0_l 25000) by lia.
    apply Z.quot_le_mono; nia.
  - intros battery2 v2 raw2 Hc2 Hsame Hopp.
    rewrite (get_current_exact battery2 v2 raw2 Hc2) by lia.
    rewrite Hsame, Hopp.
    replace (charge_full_design_uah battery * - to_s16 raw * 52)
      with (- (charge_full_design_uah battery * to_s16 raw * 52)) by ring.
    rewrite Z.quot_opp_l by lia. reflexivity.
Qed.

(** 5000 mAh discharging at 20 LSB: -208000 uA; charging at 20 LSB:
    +208000 uA. *)
Lemma get_current_sign_witness :
  fst (max17048_get_current 0
         (Fixture.battery_on
            (Fixture.steady (IoOk 0) (IoOk 0) (IoOk 65516))))
  = (0, -208000)
  /\ fst (max17048_get_current 0
            (Fixture.battery_on
               (Fixture.steady (IoOk 0) (IoOk 0) (IoOk 20))))
     = (0, 208000).
Proof.
  destruct (get_current_sign
              (Fixture.battery_on
                 (Fixture.steady (IoOk 0) (IoOk 0) (IoOk 65516)))
              0 65516 eq_refl)
    as (current & Hfst & Hval & _ & _ & _ & Hopp).
  - cbn. lia.
  - assert (current = -208000) as Hcur by (rewrite Hval; reflexivity).
    split.
    + rewrite Hfst, Hcur. reflexivity.
    + rewrite (Hopp (Fixture.battery_on
                       (Fixture.steady (IoOk 0) (IoOk 0) (IoOk 20)))
                 0 20 eq_refl eq_refl eq_refl).
      rewrite Hcur. reflexivity.
Defined.

(** X5: when [max17048_get_time_to_empty] returns a value, it lies
    between 0 and 1258741 s, and it is 0 exactly when the state of charge
    reads below 1 %. *)
Theorem time_to_empty_bounds ENODATA battery val raw soc_raw :
  answer battery 0 MAX17048_CRATE_REG = IoOk raw ->
  to_s16 raw < -10 ->
  answer battery 1 MAX17048_SOC_REG = IoOk soc_raw ->
  0 <= soc_raw < 65536 ->
  exists seconds,
    fst (max17048_get_time_to_empty ENODATA val battery) = (0, seconds)
    /\ 0 <= seconds <= 1258741
    /\ (seconds = 0 <-> soc_raw < 256).
Proof.
  intros Hc Hlt Hs Hrange.
  rewrite (time_to_empty_value ENODATA _ val _ _ Hc Hlt Hs Hrange).
  cbn [fst]. eexists. split; [reflexivity |].
  pose proof (to_s16_range raw) as Hcr.
  pose proof (soc_percent_range soc_raw Hrange) as Hpct.
  set (pct := Z.min (soc_raw / 256) 100) in *.
  set (rate := Z.abs (to_s16 raw)).
  assert (11 <= rate <= 32768) as Hrate by (unfold rate; lia).
  assert (pct = 0 <-> soc_raw < 256) as Hzero.
  { unfold pct. split.
    - intros Hmin.
      assert (soc_raw / 256 = 0) as Hq by lia.
      apply Z.div_small_iff in Hq; lia.
    - intros Hsmall. rewrite Z.div_small by lia. reflexivity. }
  split; [split |].
  - apply Z.div_pos; lia.
  - assert (225000 * pct * 8 / (rate * 13) < 1258742); [| lia].
    apply Z.div_lt_upper_bound; lia.
  - rewrite <- Hzero. split.
    + intros Hq. apply Z.div_small_iff in Hq; [| lia]. nia.
    + intros ->. reflexivity.
Qed.

Lemma time_to_empty_bounds_witness :
  exists seconds,
    fst (max17048_get_time_to_empty 61 0
           (Fixture.battery_on
              (Fixture.steady (IoOk 0) (IoOk 25600) (IoOk 65525))))
    = (0, seconds)
    /\ 0 <= seconds <= 1258741.
Proof.
  destruct (time_to_empty_bounds 61
              (Fixture.battery_on
                 (Fixture.steady (IoOk 0) (IoOk 25600) (IoOk 65525)))
              0 65525 25600 eq_refl)
    as (seconds & Hfst & Hbounds & _);
    [vm_compute; reflexivity | reflexivity | lia |].
  exists seconds. split; assumption.
Defined.

(** X6: when [max17048_get_time_to_full] returns a value, it lies between
    0 and 157342 s, and it is 0 when the state of charge reads 100 %. *)
Theorem time_to_full_bounds ENODATA battery val raw soc_raw :
  answer battery 0 MAX17048_CRATE_REG = IoOk raw ->
  10 < to_s16 raw ->
  answer battery 1 MAX17048_SOC_REG = IoOk soc_raw ->
  0 <= soc_raw < 65536 ->
  exists seconds,
    fst (max17048_get_time_to_full ENODATA val battery) = (0, seconds)
    /\ 0 <= seconds <= 157342
    /\ (25600 <= soc_raw -> seconds = 0).
Proof.
  intros Hc Hgt Hs Hrange.
  rewrite (time_to_full_value ENODATA _ val _ _ Hc Hgt Hs Hrange).
  cbn [fst]. eexists. split; [reflexivity |].
  pose proof (to_s16_range raw) as Hcr.
  pose proof (soc_percent_range soc_raw Hrange) as Hpct.
  set (pct := Z.min (soc_raw / 256) 100) in *.
  split; [split |].
  - apply Z.div_pos; lia.
  - assert (225000 * (100 - pct) / (to_s16 raw * 13) < 157343); [| lia].
    apply Z.div_lt_upper_bound; lia.
  - intros Hfull.
    assert (100 <= soc_raw / 256) by (apply Z.div_le_lower_bound; lia).
    replace pct with 100 by (unfold pct; lia).
    reflexivity.
Qed.

Lemma time_to_full_bounds_witness :
  exists seconds,
    fst (max17048_get_time_to_full 61 0
           (Fixture.battery_on
              (Fixture.steady (IoOk 0) (IoOk 0) (IoOk 11))))
    = (0, seconds)
    /\ 0 <= seconds <= 157342.
Proof.
  destruct (time_to_full_bounds 61
              (Fixture.battery_on
                 (Fixture.steady (IoOk 0) (IoOk 0) (IoOk 11)))
              0 11 0 eq_refl)
    as (seconds & Hfst & Hbounds & _);
    [vm_compute; reflexivity | reflexivity | lia |].
  exists seconds. split; assumption.
Defined.

(** X7: for one and the same C-rate code, the time to empty and the time
    to full are never both defined, whatever the state-of-charge register
    answers; from -10 to +10 neither is, and both return [-ENODATA]. *)
Theorem time_estimates_exclusive ENODATA b1 b2 val1 val2 raw :
  0 < ENODATA ->
  answer b1 0 MAX17048_CRATE_REG = IoOk raw ->
  answer b2 0 MAX17048_CRATE_REG = IoOk raw ->
  ~ (fst (fst (max17048_get_time_to_empty ENODATA val1 b1)) = 0
     /\ fst (fst (max17048_get_time_to_full ENODATA val2 b2)) = 0)
  /\ (-10 <= to_s16 raw <= 10 ->
      fst (max17048_get_time_to_empty ENODATA val1 b1) = (- ENODATA, val1)
      /\ fst (max17048_get_time_to_full ENODATA val2 b2) = (- ENODATA, val2)).
Proof.
  intros Hpos H1 H2. split.
  - intros [Hempty Hfull].
    destruct (Z_lt_le_dec (to_s16 raw) (-10)) as [Hlt | Hge].
    + rewrite (time_to_full_nodata ENODATA b2 val2 raw H2) in Hfull by lia.
      cbn [fst] in Hfull. lia.
    + rewrite (time_to_empty_nodata ENODATA b1 val1 raw H1 Hge) in Hempty.
      cbn [fst] in Hempty. lia.
  - intros [Hlo Hhi].
    rewrite (time_to_empty_nodata ENODATA b1 val1 raw H1 Hlo).
    rewrite (time_to_full_nodata ENODATA b2 val2 raw H2 Hhi).
    split; reflexivity.
Qed.

Lemma time_estimates_exclusive_witness :
  let battery :=
    Fixture.battery_on (Fixture.steady (IoOk 0) (IoOk 12800) (IoOk 10)) in
  fst (max17048_get_time_to_empty 61 0 battery) = (-61, 0)
  /\ fst (max17048_get_time_to_full 61 0 battery) = (-61, 0).
Proof.
  intros battery.
  destruct (time_estimates_exclusive 61 battery battery 0 0 10)
    as [_ Hband]; [lia | reflexivity | reflexivity |].
  apply Hband. vm_compute. split; discriminate.
Defined.

(** ** What a property read does to the driver data *)

Lemma after_reads_0 battery : after_reads 0 battery = battery.
Proof. destruct battery as [[r c] charge energy d]. reflexivity. Qed.

Lemma after_reads_add n m battery :
  after_reads n (after_reads m battery) = after_reads (n + m) battery.
Proof.
  unfold after_reads, set_regmap. cbn [regmap reads chip
    charge_full_design_uah energy_full_design_uwh delay].
  rewrite Nat.add_assoc. reflexivity.
Qed.

Lemma frames_weaken {A : Type} lo hi (c : M A) :
  (lo <= hi)%nat -> frames lo c -> frames hi c.
Proof.
  intros Hle Hc battery. destruct (Hc battery) as (n & Hn & Heq).
  exists n. split; [lia | exact Heq].
Qed.

Lemma frames_pure {A : Type} hi (f : max17048 -> A) :
  frames hi (fun battery => (f battery, battery)).
Proof.
  intros battery. exists 0%nat. split; [lia |].
  cbn [snd]. symmetry. apply after_reads_0.
Qed.

Lemma frames_bind {A B : Type} h1 h2 (c : M A) (k : A -> M B) :
  frames h1 c -> (forall a, frames h2 (k a)) -> frames (h1 + h2) (bind c k).
Proof.
  intros Hc Hk battery. unfold bind.
  destruct (Hc battery) as (n & Hn & Heq).
  destruct (c battery) as [a battery1]. cbn [snd] in Heq. subst battery1.
  destruct (Hk a (after_reads n battery)) as (m & Hm & Heq).
  exists (m + n)%nat. split; [lia |].
  rewrite Heq. apply after_reads_add.
Qed.

Lemma frames_read_reg reg val : frames 1 (max17048_read_reg reg val).
Proof.
  intros battery. exists 1%nat. split; [lia |].
  unfold max17048_read_reg, regmap_read.
  destruct (chip (regmap battery) (reads (regmap battery)) reg); reflexivity.
Qed.

Lemma frames_get_vcell : frames 1 max17048_get_vcell.
Proof.
  unfold max17048_get_vcell.
  apply (frames_bind 1 0); [apply frames_read_reg |].
  intros [ret vcell]. destruct (nonzero ret); apply (frames_pure 0).
Qed.

Lemma frames_get_soc : frames 1 max17048_get_soc.
Proof.
  unfold max17048_get_soc.
  apply (frames_bind 1 0); [apply frames_read_reg |].
  intros [ret soc]. destruct (nonzero ret); apply (frames_pure 0).
Qed.

Lemma frames_get_crate crate : frames 1 (max17048_get_crate crate).
Proof.
  unfold max17048_get_crate.
  apply (frames_bind 1 0); [apply frames_read_reg |].
  intros [ret raw]. destruct (nonzero ret); apply (frames_pure 0).
Qed.

Lemma frames_get_current val : frames 1 (max17048_get_current val).
Proof.
  unfold max17048_get_current.
  apply (frames_bind 1 0); [apply frames_get_crate |].
  intros [ret crate]. destruct (nonzero ret); apply (frames_pure 0).
Qed.

Lemma frames_get_status : frames 2 max17048_get_status.
Proof.
  unfold max17048_get_status.
  apply (frames_bind 1 1); [apply frames_get_crate |].
  intros [ret crate].
  destruct (nonzero ret); [apply (frames_pure 1) |].
  destruct (crate >? MAX17048_CRATE_NOISE_THR); [apply (frames_pure 1) |].
  destruct (crate <? - MAX17048_CRATE_NOISE_THR); [apply (frames_pure 1) |].
  apply (frames_bind 1 0); [apply frames_get_soc |].
  intros soc. destruct (soc >=? MAX17048_FULL_SOC_THR); apply (frames_pure 0).
Qed.

Lemma frames_get_capacity_level : frames 3 max17048_get_capacity_level.
Proof.
  unfold max17048_get_capacity_level.
  apply (frames_bind 1 2); [apply frames_get_soc |]. intros soc.
  apply (frames_bind 2 0); [apply frames_get_status |]. intros status.
  destruct (soc <? 0); [apply (frames_pure 0) |].
  destruct (status_eqb status POWER_SUPPLY_STATUS_FULL
            || (soc >=? MAX17048_CAP_FULL_THR));
    [apply (frames_pure 0) |].
  destruct (soc <=? MAX17048_CAP_CRIT_THR); [apply (frames_pure 0) |].
  destruct (soc <=? MAX17048_CAP_LOW_THR); apply (frames_pure 0).
Qed.

Lemma frames_get_time_to_empty ENODATA val :
  frames 2 (max17048_get_time_to_empty ENODATA val).
Proof.
  unfold max17048_get_time_to_empty.
  apply (frames_bind 1 1); [apply frames_get_crate |].
  intros [ret crate].
  destruct (nonzero ret); [apply (frames_pure 1) |].
  destruct (crate >=? - MAX17048_TTE_RATE_THR); [apply (frames_pure 1) |].
  apply (frames_bind 1 0); [apply frames_get_soc |].
  intros soc. destruct (soc <? 0); apply (frames_pure 0).
Qed.

Lemma frames_get_time_to_full ENODATA val :
  frames 2 (max17048_get_time_to_full ENODATA val).
Proof.
  unfold max17048_get_time_to_full.
  apply (frames_bind 1 1); [apply frames_get_crate |].
  intros [ret crate].
  destruct (nonzero ret); [apply (frames_pure 1) |].
  destruct (crate <=? MAX17048_TTE_RATE_THR); [apply (frames_pure 1) |].
  apply (frames_bind 1 0); [apply frames_get_soc |].
  intros soc. destruct (soc <? 0); apply (frames_pure 0).
Qed.

Lemma frames_battery_get_property EINVAL ENODATA psp val :
  frames 3 (battery_get_property EINVAL ENODATA psp val).
Proof.
  destruct psp; cbn [battery_get_property];
    try apply (frames_pure 3).
  - apply (frames_weaken 2); [lia |].
    apply (frames_bind 2 0); [apply frames_get_status |].
    intros status. apply (frames_pure 0).
  - apply (frames_weaken 1); [lia |].
    apply (frames_bind 1 0); [apply frames_get_vcell |].
    intros ret. destruct (ret <? 0); apply (frames_pure 0).
  - apply (frames_weaken 1); [lia |].
    apply (frames_bind 1 0); [apply frames_get_soc |].
    intros ret. destruct (ret <? 0); apply (frames_pure 0).
  - apply (frames_bind 3 0); [apply frames_get_capacity_level |].
    intros level. apply (frames_pure 0).
  - apply (frames_weaken 1); [lia |].
    apply (frames_bind 1 0); [apply frames_get_soc |].
    intros ret. destruct (ret <? 0); apply (frames_pure 0).
  - apply (frames_weaken 1); [lia |].
    apply (frames_bind 1 0); [apply frames_get_soc |].
    intros ret. destruct (ret <? 0); apply (frames_pure 0).
  - apply (frames_weaken 1); [lia |].
    apply (frames_bind 1 0); [apply frames_get_current |].
    intros [ret intval]. destruct (ret <? 0); apply (frames_pure 0).
  - apply (frames_weaken 2); [lia |].
    apply (frames_bind 2 0); [apply frames_get_time_to_empty |].
    intros [ret intval]. destruct (ret <? 0); apply (frames_pure 0).
  - apply (frames_weaken 2); [lia |].
    apply (frames_bind 2 0); [apply frames_get_time_to_full |].
    intros [ret intval]. destruct (ret <? 0); apply (frames_pure 0).
Qed.

Lemma frames_ac_get_property EINVAL psp val :
  frames 2 (max17048_ac_get_property EINVAL psp val).
Proof.
  destruct psp; cbn [max17048_ac_get_property];
    try apply (frames_pure 2).
  apply (frames_bind 2 0); [apply frames_get_status |].
  intros status. apply (frames_pure 0).
Qed.

Lemma frames_same_config {A : Type} hi (c : M A) battery :
  frames hi c ->
  same_config (snd (c battery)) battery
  /\ (reads (regmap battery) <= reads (regmap (snd (c battery)))
      <= reads (regmap battery) + hi)%nat.
Proof.
  intros Hc. destruct (Hc battery) as (n & Hn & ->).
  unfold same_config, after_reads, set_regmap.
  cbn [regmap reads chip charge_full_design_uah energy_full_design_uwh delay].
  repeat split; lia.
Qed.

(** X8: no property read of the battery or of the AC adapter changes the
    design capacity, the design energy, the polling delay or the chip
    behind the register map; a battery property reads at most three
    registers and an AC property at most two. *)
Theorem get_property_keeps_config EINVAL ENODATA psp val battery :
  (same_config
     (snd (battery_get_property EINVAL ENODATA psp val battery)) battery
   /\ (reads (regmap battery)
       <= reads (regmap
                   (snd (battery_get_property EINVAL ENODATA psp val battery)))
       <= reads (regmap battery) + 3)%nat)
  /\ (same_config
        (snd (max17048_ac_get_property EINVAL psp val battery)) battery
      /\ (reads (regmap battery)
          <= reads (regmap
                      (snd (max17048_ac_get_property EINVAL psp val battery)))
          <= reads (regmap battery) + 2)%nat).
Proof.
  split.
  - apply (frames_same_config 3
             (battery_get_property EINVAL ENODATA psp val)).
    apply frames_battery_get_property.
  - apply (frames_same_config 2 (max17048_ac_get_property EINVAL psp val)).
    apply frames_ac_get_property.
Qed.

(** The capacity level in the noise band at 96 % takes the three reads. *)
Example capacity_level_three_reads :
  reads (regmap
           (snd (battery_get_property 22 61 POWER_SUPPLY_PROP_CAPACITY_LEVEL
                   (Intval 0)
                   (Fixture.battery_on
                      (Fixture.steady (IoOk 0) (IoOk 24576) (IoOk 0))))))
  = 3%nat.
Proof. reflexivity. Qed.

(** ** Callbacks on a failing bus *)

(** X9: when every register read fails, the status and the capacity level
    are still reported, as Unknown and with return code 0; the properties
    that need no register succeed; every other battery property returns
    a negative code and leaves the output untouched; the AC adapter is
    reported offline, with return code 0. *)
Theorem get_property_on_dead_bus EINVAL ENODATA psp val battery :
  0 < EINVAL ->
  dead_bus battery ->
  let result := fst (battery_get_property EINVAL ENODATA psp val battery) in
  match psp with
  | POWER_SUPPLY_PROP_STATUS =>
      result = (0, Statusval POWER_SUPPLY_STATUS_UNKNOWN)
  | POWER_SUPPLY_PROP_CAPACITY_LEVEL =>
      result = (0, Levelval POWER_SUPPLY_CAPACITY_LEVEL_UNKNOWN)
  | POWER_SUPPLY_PROP_CHARGE_FULL_DESIGN
  | POWER_SUPPLY_PROP_ENERGY_FULL
  | POWER_SUPPLY_PROP_ENERGY_FULL_DESIGN
  | POWER_SUPPLY_PROP_TECHNOLOGY
  | POWER_SUPPLY_PROP_MODEL_NAME
  | POWER_SUPPLY_PROP_MANUFACTURER
  | POWER_SUPPLY_PROP_PRESENT => fst result = 0
  | _ => fst result < 0 /\ snd result = val
  end
  /\ fst (max17048_ac_get_property EINVAL POWER_SUPPLY_PROP_ONLINE val
            battery) = (0, Intval 0).
Proof.
  intros Hpos Hdead result.
  destruct (Hdead 0%nat MAX17048_VCELL_REG) as [ev Hv].
  destruct (Hdead 0%nat MAX17048_SOC_REG) as [es Hs].
  destruct (Hdead 0%nat MAX17048_CRATE_REG) as [ec Hc].
  split.
  - unfold result.
    destruct psp; cbn [battery_get_property]; unfold bind;
      try (cbn [Ret fst]; reflexivity);
      try (cbn [Ret fst snd]; split; [lia | reflexivity]).
    + rewrite (get_status_crate_err _ _ Hc). reflexivity.
    + rewrite (get_vcell_err _ _ Hv). cbn. split; [lia | reflexivity].
    + rewrite (get_soc_err _ _ Hs). cbn. split; [lia | reflexivity].
    + fold (bind max17048_get_soc
              (fun soc =>
                 bind max17048_get_status
                   (fun status =>
                      if soc <? 0 then Ret POWER_SUPPLY_CAPACITY_LEVEL_UNKNOWN
                      else if status_eqb status POWER_SUPPLY_STATUS_FULL
                              || (soc >=? MAX17048_CAP_FULL_THR)
                      then Ret POWER_SUPPLY_CAPACITY_LEVEL_FULL
                      else if soc <=? MAX17048_CAP_CRIT_THR
                      then Ret POWER_SUPPLY_CAPACITY_LEVEL_CRITICAL
                      else if soc <=? MAX17048_CAP_LOW_THR
                      then Ret POWER_SUPPLY_CAPACITY_LEVEL_LOW
                      else Ret POWER_SUPPLY_CAPACITY_LEVEL_NORMAL))
              battery).
      fold max17048_get_capacity_level.
      rewrite get_capacity_level_eq, (get_soc_err _ _ Hs). reflexivity.
    + rewrite (get_soc_err _ _ Hs). cbn. split; [lia | reflexivity].
    + rewrite (get_soc_err _ _ Hs). cbn. split; [lia | reflexivity].
    + rewrite (get_current_crate_err _ _ _ Hc). cbn.
      split; [lia | reflexivity].
    + rewrite (time_to_empty_crate_err _ _ _ _ Hc). cbn.
      split; [lia | reflexivity].
    + rewrite (time_to_full_crate_err _ _ _ _ Hc). cbn.
      split; [lia | reflexivity].
  - unfold max17048_ac_get_property, bind.
    rewrite (get_status_crate_err _ _ Hc). reflexivity.
Qed.

Lemma get_property_on_dead_bus_witness :
  let battery := Fixture.battery_on Scenario.dead in
  fst (battery_get_property 22 61 POWER_SUPPLY_PROP_STATUS (Intval 7) battery)
  = (0, Statusval POWER_SUPPLY_STATUS_UNKNOWN)
  /\ (fst (fst (battery_get_property 22 61 POWER_SUPPLY_PROP_VOLTAGE_NOW
                  (Intval 7) battery)) < 0
      /\ snd (fst (battery_get_property 22 61 POWER_SUPPLY_PROP_VOLTAGE_NOW
                     (Intval 7) battery)) = Intval 7)
  /\ fst (max17048_ac_get_property 22 POWER_SUPPLY_PROP_ONLINE (Intval 7)
            battery) = (0, Intval 0).
Proof.
  intros battery.
  assert (dead_bus battery) as Hdead.
  { intros k reg. exists 5%positive. reflexivity. }
  destruct (get_property_on_dead_bus 22 61 POWER_SUPPLY_PROP_STATUS
              (Intval 7) battery ltac:(lia) Hdead) as [Hstatus Hac].
  destruct (get_property_on_dead_bus 22 61 POWER_SUPPLY_PROP_VOLTAGE_NOW
              (Intval 7) battery ltac:(lia) Hdead) as [Hvolt _].
  split; [exact Hstatus | split; [exact Hvolt | exact Hac]].
Defined.

(** X10: the AC adapter is reported online exactly when the status is
    Charging or Full: a C-rate above +4, or a C-rate within the noise band
    with a state of charge of at least 95 %.  A failed C-rate read, and a
    failed state-of-charge read in the band, report it offline with return
    code 0; any other property returns [-EINVAL], leaves the output
    untouched and reads no register. *)
Theorem ac_online_from_registers EINVAL val battery :
  (forall e,
      answer battery 0 MAX17048_CRATE_REG = IoErr e ->
      fst (max17048_ac_get_property EINVAL POWER_SUPPLY_PROP_ONLINE val
             battery) = (0, Intval 0))
  /\ (forall raw,
         answer battery 0 MAX17048_CRATE_REG = IoOk raw ->
         (4 < to_s16 raw ->
          fst (max17048_ac_get_property EINVAL POWER_SUPPLY_PROP_ONLINE val
                 battery) = (0, Intval 1))
         /\ (to_s16 raw < -4 ->
             fst (max17048_ac_get_property EINVAL POWER_SUPPLY_PROP_ONLINE
                    val battery) = (0, Intval 0))
         /\ (-4 <= to_s16 raw <= 4 ->
             (forall soc_raw,
                 answer battery 1 MAX17048_SOC_REG = IoOk soc_raw ->
                 0 <= soc_raw < 65536 ->
                 fst (max17048_ac_get_property EINVAL POWER_SUPPLY_PROP_ONLINE
                        val battery)
                 = (0, Intval (if 24320 <=? soc_raw then 1 else 0)))
             /\ (forall e,
                    answer battery 1 MAX17048_SOC_REG = IoErr e ->
                    fst (max17048_ac_get_property EINVAL
                           POWER_SUPPLY_PROP_ONLINE val battery)
                    = (0, Intval 0))))
  /\ (forall psp,
         psp <> POWER_SUPPLY_PROP_ONLINE ->
         max17048_ac_get_property EINVAL psp val battery
         = ((- EINVAL, val), battery)).
Proof.
  split; [| split].
  - intros e Hc. unfold max17048_ac_get_property, bind.
    rewrite (get_status_crate_err _ _ Hc). reflexivity.
  - intros raw Hc. split; [| split].
    + intros Hgt. unfold max17048_ac_get_property, bind.
      rewrite (get_status_charging _ _ Hc Hgt). reflexivity.
    + intros Hlt. unfold max17048_ac_get_property, bind.
      rewrite (get_status_discharging _ _ Hc Hlt). reflexivity.
    + intros Hband. split.
      * intros soc_raw Hs Hrange. unfold max17048_ac_get_property, bind.
        rewrite (get_status_band_soc_ok _ _ _ Hc Hband Hs Hrange).
        assert ((Z.min (soc_raw / 256) 100 >=? 95) = (24320 <=? soc_raw))
          as ->.
        { destruct (Z.leb_spec 24320 soc_raw) as [Hge | Hlt].
          - assert (95 <= soc_raw / 256)
              by (apply Z.div_le_lower_bound; lia).
            apply Z.geb_le. lia.
          - assert (soc_raw / 256 < 95)
              by (apply Z.div_lt_upper_bound; lia).
            destruct (Z.geb_spec (Z.min (soc_raw / 256) 100) 95);
              [lia | reflexivity]. }
        destruct (24320 <=? soc_raw); reflexivity.
      * intros e Hs. unfold max17048_ac_get_property, bind.
        rewrite (get_status_band_soc_err _ _ _ Hc Hband Hs). reflexivity.
  - intros psp Hpsp. destruct psp; try reflexivity. contradiction.
Qed.

Lemma ac_online_from_registers_witness :
  fst (max17048_ac_get_property 22 POWER_SUPPLY_PROP_ONLINE (Intval 7)
         (Fixture.battery_on
            (Fixture.steady (IoOk 0) (IoOk 24320) (IoOk 65534))))
  = (0, Intval 1)
  /\ max17048_ac_get_property 22 POWER_SUPPLY_PROP_STATUS (Intval 7)
       (Fixture.battery_on
          (Fixture.steady (IoOk 0) (IoOk 24320) (IoOk 65534)))
     = ((-22, Intval 7),
        Fixture.battery_on
          (Fixture.steady (IoOk 0) (IoOk 24320) (IoOk 65534))).
Proof.
  destruct (ac_online_from_registers 22 (Intval 7)
              (Fixture.battery_on
                 (Fixture.steady (IoOk 0) (IoOk 24320) (IoOk 65534))))
    as (_ & Hok & Hother).
  split.
  - destruct (Hok 65534 eq_refl) as (_ & _ & Hband).
    destruct Hband as [Hsoc _]; [vm_compute; split; discriminate |].
    apply (Hsoc 24320 eq_refl). lia.
  - apply Hother. discriminate.
Defined.

(** X11: with a design capacity and energy below 2^31, the charge now and
    the energy now are the percentage of the design value, rounded down:
    never above the design value, and equal to it when the state of
    charge reads 100 % or more. *)
Theorem charge_and_energy_now EINVAL ENODATA val battery raw :
  answer battery 0 MAX17048_SOC_REG = IoOk raw ->
  0 <= raw < 65536 ->
  0 <= charge_full_design_uah battery < 2147483648 ->
  0 <= energy_full_design_uwh battery < 2147483648 ->
  exists charge energy,
    fst (battery_get_property EINVAL ENODATA POWER_SUPPLY_PROP_CHARGE_NOW
           val battery) = (0, Intval charge)
    /\ fst (battery_get_property EINVAL ENODATA POWER_SUPPLY_PROP_ENERGY_NOW
              val battery) = (0, Intval energy)
    /\ charge = Z.min (raw / 256) 100 * charge_full_design_uah battery / 100
    /\ energy = Z.min (raw / 256) 100 * energy_full_design_uwh battery / 100
    /\ 0 <= charge <= charge_full_design_uah battery
    /\ 0 <= energy <= energy_full_design_uwh battery
    /\ (25600 <= raw ->
        charge = charge_full_design_uah battery
        /\ energy = energy_full_design_uwh battery).
Proof.
  intros Hs Hrange Hcharge Henergy.
  pose proof (soc_percent_range raw Hrange) as Hpct.
  set (pct := Z.min (raw / 256) 100) in *.
  assert (forall design,
             0 <= design < 2147483648 ->
             to_int (div_s64 (to_s64 (pct * design)) 100) = pct * design / 100
             /\ 0 <= pct * design / 100 <= design) as Hnow.
  { intros design Hd.
    assert (0 <= pct * design / 100 <= design) as Hq.
    { split.
      - apply Z.div_pos; nia.
      - apply Z.div_le_upper_bound; nia. }
    split; [| exact Hq].
    unfold div_s64.
    rewrite (to_s64_small (pct * design)) by nia.
    rewrite Z.quot_div_nonneg by nia.
    rewrite to_s64_small by lia.
    apply to_int_small. lia. }
  destruct (Hnow _ Hcharge) as [Hc1 Hc2].
  destruct (Hnow _ Henergy) as [He1 He2].
  exists (pct * charge_full_design_uah battery / 100),
    (pct * energy_full_design_uwh battery / 100).
  split; [| split; [| split; [reflexivity | split; [reflexivity |]]]].
  - unfold battery_get_property, bind.
    rewrite (get_soc_ok _ _ Hs Hrange). fold pct.
    destruct (Z.ltb_spec pct 0); [lia |].
    cbn [fst].
    change (charge_full_design_uah (after_reads 1 battery))
      with (charge_full_design_uah battery).
    rewrite Hc1. reflexivity.
  - unfold battery_get_property, bind.
    rewrite (get_soc_ok _ _ Hs Hrange). fold pct.
    destruct (Z.ltb_spec pct 0); [lia |].
    cbn [fst].
    change (energy_full_design_uwh (after_reads 1 battery))
      with (energy_full_design_uwh battery).
    rewrite He1. reflexivity.
  - split; [exact Hc2 | split; [exact He2 |]].
    intros Hfull.
    assert (100 <= raw / 256) by (apply Z.div_le_lower_bound; lia).
    replace pct with 100 by (unfold pct; lia).
    split; rewrite Z.mul_comm; apply Z.div_mul; lia.
Qed.

(** Half of 5000000 uAh and of 18500000 uWh at 50 %. *)
Lemma charge_and_energy_now_witness :
  let battery :=
    Fixture.battery_on (Fixture.steady (IoOk 0) (IoOk 12800) (IoOk 0)) in
  fst (battery_get_property 22 61 POWER_SUPPLY_PROP_CHARGE_NOW (Intval 0)
         battery) = (0, Intval 2500000)
  /\ fst (battery_get_property 22 61 POWER_SUPPLY_PROP_ENERGY_NOW (Intval 0)
            battery) = (0, Intval 9250000).
Proof.
  intros battery.
  destruct (charge_and_energy_now 22 61 (Intval 0) battery 12800 eq_refl)
    as (charge & energy & Hc & He & Hcv & Hev & _);
    [lia | cbn; lia | cbn; lia |].
  rewrite Hc, He, Hcv, Hev. split; reflexivity.
Defined.

(** X12: a failed C-rate read does not make the capacity level Unknown:
    the level then follows the percentage alone, Full from 99 %, Critical
    up to 5 %, Low up to 15 % and Normal between. *)
Theorem capacity_level_without_crate battery raw e :
  answer battery 0 MAX17048_SOC_REG = IoOk raw ->
  0 <= raw < 65536 ->
  answer battery 1 MAX17048_CRATE_REG = IoErr e ->
  fst (max17048_get_capacity_level battery)
  = (if 25344 <=? raw then POWER_SUPPLY_CAPACITY_LEVEL_FULL
     else if raw <? 1536 then POWER_SUPPLY_CAPACITY_LEVEL_CRITICAL
     else if raw <? 4096 then POWER_SUPPLY_CAPACITY_LEVEL_LOW
     else POWER_SUPPLY_CAPACITY_LEVEL_NORMAL).
Proof.
  intros Hs Hrange Hc.
  rewrite get_capacity_level_eq.
  rewrite (get_soc_ok _ _ Hs Hrange). cbn [fst snd].
  rewrite (get_status_crate_err (after_reads 1 battery) e Hc).
  cbn [fst status_eqb orb].
  pose proof (soc_percent_range raw Hrange) as Hpct.
  pose proof (Z.div_mod raw 256 ltac:(lia)) as Hdiv.
  pose proof (Z.mod_pos_bound raw 256 ltac:(lia)) as Hmod.
  destruct (Z.ltb_spec (Z.min (raw / 256) 100) 0); [lia |].
  destruct (Z.geb_spec (Z.min (raw / 256) 100) 99);
    destruct (Z.leb_spec 25344 raw); try lia; [reflexivity |].
  destruct (Z.leb_spec (Z.min (raw / 256) 100) 5);
    destruct (Z.ltb_spec raw 1536); try lia; [reflexivity |].
  destruct (Z.leb_spec (Z.min (raw / 256) 100) 15);
    destruct (Z.ltb_spec raw 4096); try lia; reflexivity.
Qed.

Lemma capacity_level_without_crate_witness :
  fst (max17048_get_capacity_level
         (Fixture.battery_on
            (Fixture.steady (IoOk 0) (IoOk 2560) (IoErr 5))))
  = POWER_SUPPLY_CAPACITY_LEVEL_LOW.
Proof.
  apply (capacity_level_without_crate
           (Fixture.battery_on
              (Fixture.steady (IoOk 0) (IoOk 2560) (IoErr 5)))
           2560 5%positive eq_refl);
    [lia | reflexivity].
Defined.

(** ** Configuration read by the probe *)

Lemma probe_charge_default msecs_to_jiffies client map e :
  fwnode (dev client) "charge-full-design-microamp-hours" = IoErr e ->
  (forall mah,
      fwnode (dev client) "battery-capacity" = IoOk mah ->
      mah <= 0 \/ 20000 <= mah) ->
  charge_full_design_uah (max17048_probe msecs_to_jiffies client map)
  = 5000000.
Proof.
  intros Hcharge Hlegacy.
  unfold max17048_probe, device_property_read_u32. rewrite Hcharge.
  cbn [nonzero Z.eqb negb Z.gtb Z.compare].
  unfold MAX17048_DEFAULT_CAP_UAH.
  destruct (fwnode (dev client) "battery-capacity") as [mah | e'] eqn:Hmah.
  - cbn [Z.eqb]. specialize (Hlegacy mah eq_refl).
    destruct (Z.gtb_spec mah 0); destruct (Z.ltb_spec mah 20000);
      try lia; cbn [andb];
      destruct (fwnode (dev client) "energy-full-design-microwatt-hours");
      reflexivity.
  - cbn [Z.eqb].
    destruct (fwnode (dev client) "energy-full-design-microwatt-hours");
      reflexivity.
Qed.

(** X13: whatever the firmware node holds ([u32] values), the design
    capacity that [max17048_probe] leaves is between 1 and 19999000 uAh;
    it is at most 10000000 uAh whenever the microamp-hour property is
    present, and whenever the legacy property is not above 10000 mAh. *)
Theorem probe_capacity_range msecs_to_jiffies client map :
  (forall name v, fwnode (dev client) name = IoOk v -> 0 <= v < 4294967296) ->
  let charge :=
    charge_full_design_uah (max17048_probe msecs_to_jiffies client map) in
  1 <= charge <= 19999000
  /\ ((exists v,
          fwnode (dev client) "charge-full-design-microamp-hours" = IoOk v) ->
      charge <= 10000000)
  /\ ((forall mah,
          fwnode (dev client) "battery-capacity" = IoOk mah -> mah <= 10000) ->
      charge <= 10000000).
Proof.
  intros Hu32 charge. unfold charge. split; [| split].
  - apply probe_charge_bounds. exact Hu32.
  - intros [v Hv].
    rewrite (probe_charge_explicit msecs_to_jiffies client map Hu32 v Hv).
    destruct (v =? 0); lia.
  - intros Hsmall.
    destruct (fwnode (dev client) "charge-full-design-microamp-hours")
      as [v | e] eqn:Hv.
    + rewrite (probe_charge_explicit msecs_to_jiffies client map Hu32 v Hv).
      destruct (v =? 0); lia.
    + destruct (fwnode (dev client) "battery-capacity") as [mah | e']
        eqn:Hmah.
      * pose proof (Hsmall mah eq_refl) as Hle.
        destruct (Z_lt_le_dec 0 mah) as [Hpos | Hnpos].
        -- rewrite (probe_charge_legacy msecs_to_jiffies client map
                      e mah Hv Hmah) by lia.
           lia.
        -- rewrite (probe_charge_default msecs_to_jiffies client map e Hv).
           ++ lia.
           ++ intros mah' Hmah'. rewrite Hmah in Hmah'.
              injection Hmah' as <-. left. exact Hnpos.
      * rewrite (probe_charge_default msecs_to_jiffies client map e Hv).
        -- lia.
        -- intros mah' Hmah'. rewrite Hmah in Hmah'. discriminate Hmah'.
Qed.

Lemma fixture_node_u32 charge_uah capacity_mah energy_uwh :
  (forall v, charge_uah = Some v -> 0 <= v < 4294967296) ->
  (forall v, capacity_mah = Some v -> 0 <= v < 4294967296) ->
  (forall v, energy_uwh = Some v -> 0 <= v < 4294967296) ->
  forall name v,
    fwnode (Fixture.node charge_uah capacity_mah energy_uwh) name = IoOk v ->
    0 <= v < 4294967296.
Proof.
  intros Hc Hm He name v. unfold Fixture.node. cbn [fwnode].
  destruct (String.eqb name "charge-full-design-microamp-hours").
  - destruct charge_uah; [| discriminate].
    intros [= <-]. apply Hc. reflexivity.
  - destruct (String.eqb name "battery-capacity").
    + destruct capacity_mah; [| discriminate].
      intros [= <-]. apply Hm. reflexivity.
    + destruct (String.eqb name "energy-full-design-microwatt-hours");
        [| discriminate].
      destruct energy_uwh; [| discriminate].
      intros [= <-]. apply He. reflexivity.
Qed.

(** A legacy capacity of 8000 mAh stays below the maximum. *)
Lemma probe_capacity_range_witness :
  1 <= charge_full_design_uah
         (max17048_probe Scenario.jiffies_250
            (Fixture.client_of (Fixture.node None (Some 8000) None))
            (Scenario.fresh_map Scenario.dead))
    <= 10000000.
Proof.
  destruct (probe_capacity_range Scenario.jiffies_250
              (Fixture.client_of (Fixture.node None (Some 8000) None))
              (Scenario.fresh_map Scenario.dead))
    as (Hrange & _ & Hsmall).
  - apply fixture_node_u32; intros v Hv; try discriminate Hv.
    injection Hv as <-. lia.
  - split; [apply Hrange |].
    apply Hsmall. intros mah Hmah. vm_compute in Hmah.
    injection Hmah as <-. lia.
Defined.

(** X14: whatever the firmware node holds ([u32] values), the design
    energy that [max17048_probe] leaves is between 1 and 18500000 uWh.
    When the microwatt-hour property is absent or zero, it is 3.7 times
    the design capacity, rounded down and clamped, so every design
    capacity from 5000000 uAh on gives exactly 18500000 uWh. *)
Theorem probe_energy_range msecs_to_jiffies client map :
  (forall name v, fwnode (dev client) name = IoOk v -> 0 <= v < 4294967296) ->
  let drv := max17048_probe msecs_to_jiffies client map in
  1 <= energy_full_design_uwh drv <= 18500000
  /\ ((forall v,
          fwnode (dev client) "energy-full-design-microwatt-hours" = IoOk v ->
          v = 0) ->
      energy_full_design_uwh drv
      = Z.min (charge_full_design_uah drv * 37 / 10) 18500000
      /\ (5000000 <= charge_full_design_uah drv ->
          energy_full_design_uwh drv = 18500000)).
Proof.
  intros Hu32 drv. split.
  - apply probe_energy_bounds. exact Hu32.
  - intros Habsent.
    pose proof (probe_charge_bounds msecs_to_jiffies client map Hu32)
      as Hcharge.
    fold drv in Hcharge.
    assert (energy_full_design_uwh drv
            = Z.min (charge_full_design_uah drv * 37 / 10) 18500000) as Heq.
    { unfold drv. rewrite probe_energy_eq. cbv zeta. fold drv.
      assert (to_u32 (div_u64 (to_u64 (charge_full_design_uah drv * 37)) 10)
              = charge_full_design_uah drv * 37 / 10) as Hderived.
      { unfold div_u64, to_u64. rewrite Z.mod_small by lia.
        apply to_u32_small. split.
        - apply Z.div_pos; lia.
        - apply Z.div_lt_upper_bound; lia. }
      unfold MAX17048_MAX_ENERGY_UWH.
      destruct (fwnode (dev client) "energy-full-design-microwatt-hours")
        as [v | e] eqn:Henergy.
      - rewrite (Habsent v eq_refl). cbn [Z.eqb]. rewrite Hderived.
        destruct (Z.gtb_spec (charge_full_design_uah drv * 37 / 10) 18500000);
          lia.
      - rewrite Hderived.
        destruct (Z.gtb_spec (charge_full_design_uah drv * 37 / 10) 18500000);
          lia. }
    split; [exact Heq |].
    intros Hbig. rewrite Heq.
    assert (18500000 <= charge_full_design_uah drv * 37 / 10)
      by (apply Z.div_le_lower_bound; lia).
    lia.
Qed.

(** 2000 mAh: 2000000 uAh and 7400000 uWh. *)
Lemma probe_energy_range_witness :
  energy_full_design_uwh
    (max17048_probe Scenario.jiffies_250
       (Fixture.client_of (Fixture.node None (Some 2000) None))
       (Scenario.fresh_map Scenario.dead))
  = Z.min (2000000 * 37 / 10) 18500000.
Proof.
  destruct (probe_energy_range Scenario.jiffies_250
              (Fixture.client_of (Fixture.node None (Some 2000) None))
              (Scenario.fresh_map Scenario.dead))
    as (_ & Hderived).
  - apply fixture_node_u32; intros v Hv; try discriminate Hv.
    injection Hv as <-. lia.
  - destruct Hderived as [Heq _].
    + intros v Hv. vm_compute in Hv. discriminate Hv.
    + exact Heq.
Defined.

(** X15: when the microamp-hour property is present, the legacy property
    is not consulted: the design capacity is the property clamped to
    10000000 uAh, and the default 5000000 uAh when the property is 0, even
    beside a valid legacy capacity. *)
Theorem probe_explicit_shadows_legacy msecs_to_jiffies client map v :
  (forall name w, fwnode (dev client) name = IoOk w -> 0 <= w < 4294967296) ->
  fwnode (dev client) "charge-full-design-microamp-hours" = IoOk v ->
  charge_full_design_uah (max17048_probe msecs_to_jiffies client map)
  = (if v =? 0 then 5000000 else Z.min v 10000000)
  /\ forall other,
       fwnode (dev other) "charge-full-design-microamp-hours" = IoOk v ->
       charge_full_design_uah (max17048_probe msecs_to_jiffies other map)
       = charge_full_design_uah (max17048_probe msecs_to_jiffies client map).
Proof.
  intros Hu32 Hv. split.
  - apply probe_charge_explicit; assumption.
  - intros other Hother.
    rewrite (probe_charge_explicit msecs_to_jiffies client map Hu32 v Hv).
    unfold max17048_probe, device_property_read_u32. rewrite Hother.
    pose proof (Hu32 _ _ Hv) as Hrange.
    cbn [nonzero Z.eqb negb].
    unfold MAX17048_MAX_CAP_UAH, MAX17048_DEFAULT_CAP_UAH.
    destruct (Z.gtb_spec v 10000000) as [Hgt | Hle].
    + destruct (Z.eqb_spec v 0); [lia |].
      destruct (fwnode (dev other) "energy-full-design-microwatt-hours");
        simpl; lia.
    + destruct (Z.eqb_spec v 0) as [-> | Hnz];
        destruct (fwnode (dev other) "energy-full-design-microwatt-hours");
        simpl; lia.
Qed.

(** A zero microamp-hour property beside a legacy 3000 mAh: 5000000 uAh. *)
Lemma probe_explicit_shadows_legacy_witness :
  charge_full_design_uah
    (max17048_probe Scenario.jiffies_250
       (Fixture.client_of (Fixture.node (Some 0) (Some 3000) None))
       (Scenario.fresh_map Scenario.dead))
  = 5000000.
Proof.
  destruct (probe_explicit_shadows_legacy Scenario.jiffies_250
              (Fixture.client_of (Fixture.node (Some 0) (Some 3000) None))
              (Scenario.fresh_map Scenario.dead) 0)
    as [Heq _].
  - apply fixture_node_u32; intros v Hv; try discriminate Hv;
      injection Hv as <-; lia.
  - reflexivity.
  - exact Heq.
Defined.

(** X16: without the microamp-hour property, a legacy capacity that is
    missing, zero, or 20000 mAh or more is rejected, not clamped: the
    design capacity is the default 5000000 uAh. *)
Theorem probe_legacy_rejected msecs_to_jiffies client map e :
  fwnode (dev client) "charge-full-design-microamp-hours" = IoErr e ->
  (forall mah,
      fwnode (dev client) "battery-capacity" = IoOk mah ->
      mah <= 0 \/ 20000 <= mah) ->
  charge_full_design_uah (max17048_probe msecs_to_jiffies client map)
  = MAX17048_DEFAULT_CAP_UAH.
Proof. apply probe_charge_default. Qed.

Lemma probe_legacy_rejected_witness :
  charge_full_design_uah
    (max17048_probe Scenario.jiffies_250
       (Fixture.client_of (Fixture.node None (Some 20000) None))
       (Scenario.fresh_map Scenario.dead))
  = 5000000.
Proof.
  apply (probe_legacy_rejected Scenario.jiffies_250
           (Fixture.client_of (Fixture.node None (Some 20000) None))
           (Scenario.fresh_map Scenario.dead) 22%positive eq_refl).
  intros mah Hmah. vm_compute in Hmah. injection Hmah as <-. right. lia.
Defined.

(** X17: after [max17048_probe], on any firmware node ([u32] values) and
    any bus, the full-design properties succeed without reading a
    register and report the configured values unwrapped: a design
    capacity between 1 and 19999000 uAh, and the same design energy
    between 1 and 18500000 uWh for ENERGY_FULL and ENERGY_FULL_DESIGN. *)
Theorem design_properties_after_probe
    msecs_to_jiffies client map EINVAL ENODATA val :
  (forall name v, fwnode (dev client) name = IoOk v -> 0 <= v < 4294967296) ->
  let drv := max17048_probe msecs_to_jiffies client map in
  exists charge energy,
    battery_get_property EINVAL ENODATA POWER_SUPPLY_PROP_CHARGE_FULL_DESIGN
      val drv = ((0, Intval charge), drv)
    /\ battery_get_property EINVAL ENODATA POWER_SUPPLY_PROP_ENERGY_FULL
         val drv = ((0, Intval energy), drv)
    /\ battery_get_property EINVAL ENODATA
         POWER_SUPPLY_PROP_ENERGY_FULL_DESIGN val drv
       = ((0, Intval energy), drv)
    /\ charge = charge_full_design_uah drv
    /\ energy = energy_full_design_uwh drv
    /\ 1 <= charge <= 19999000
    /\ 1 <= energy <= 18500000.
Proof.
  intros Hu32 drv.
  pose proof (probe_charge_bounds msecs_to_jiffies client map Hu32) as Hc.
  pose proof (probe_energy_bounds msecs_to_jiffies client map Hu32) as He.
  fold drv in Hc, He.
  exists (charge_full_design_uah drv), (energy_full_design_uwh drv).
  cbn [battery_get_property].
  rewrite (to_int_small (charge_full_design_uah drv)) by lia.
  rewrite (to_int_small (energy_full_design_uwh drv)) by lia.
  repeat split; lia.
Qed.

Lemma design_properties_after_probe_witness :
  let drv :=
    max17048_probe Scenario.jiffies_250
      (Fixture.client_of (Fixture.node (Some 3000000) None (Some 11100000)))
      (Scenario.fresh_map Scenario.dead) in
  exists charge energy,
    battery_get_property 22 61 POWER_SUPPLY_PROP_CHARGE_FULL_DESIGN
      (Intval 0) drv = ((0, Intval charge), drv)
    /\ battery_get_property 22 61 POWER_SUPPLY_PROP_ENERGY_FULL
         (Intval 0) drv = ((0, Intval energy), drv)
    /\ 1 <= charge <= 19999000
    /\ 1 <= energy <= 18500000.
Proof.
  intros drv.
  destruct (design_properties_after_probe Scenario.jiffies_250
              (Fixture.client_of
                 (Fixture.node (Some 3000000) None (Some 11100000)))
              (Scenario.fresh_map Scenario.dead) 22 61 (Intval 0))
    as (charge & energy & Hc & He & _ & _ & _ & Hcr & Her).
  - apply fixture_node_u32; intros v Hv; try discriminate Hv;
      injection Hv as <-; lia.
  - exists charge, energy.
    split; [exact Hc | split; [exact He | split; [exact Hcr | exact Her]]].
Defined.

(** ** Polling and interrupt handling *)

Lemma exec_stmt_delay s k :
  delay (drv (exec_stmt s k)) = delay (drv k).
Proof.
  destruct s as [reg | psy |]; cbn [exec_stmt drv]; try reflexivity.
  unfold max17048_read_reg, regmap_read.
  destruct (chip (regmap (drv k)) (reads (regmap (drv k))) reg); reflexivity.
Qed.

Lemma exec_stmt_timer s k :
  s <> Schedule_delayed_work -> timer (exec_stmt s k) = timer k.
Proof.
  destruct s as [reg | psy |]; cbn [exec_stmt timer];
    [reflexivity | reflexivity | contradiction].
Qed.

Lemma step_polling_alive d a k k' :
  polling_alive d k -> step a k = Some k' -> polling_alive d k'.
Proof.
  intros (Hdelay & Hwork & Hirq) Hstep.
  destruct a; cbn [step] in Hstep.
  - destruct (timer k) as [t |] eqn:Ht; [| discriminate].
    destruct (work_rest k) eqn:Hw; [| discriminate].
    injection Hstep as <-.
    unfold polling_alive. cbn [drv timer work_rest irq_rest].
    split; [exact Hdelay | split; [| exact Hirq]].
    right. split; [reflexivity | left; reflexivity].
  - destruct (irq_rest k) eqn:Hi; [| discriminate].
    injection Hstep as <-.
    unfold polling_alive. cbn [drv timer work_rest irq_rest].
    split; [exact Hdelay | split; [exact Hwork |]].
    unfold max17048_irq_handler. cbn [In].
    intros [H | [H | [H | []]]]; discriminate H.
  - destruct (work_rest k) as [| s rest] eqn:Hw; [discriminate |].
    injection Hstep as <-.
    destruct (exec_stmt_changed s
                {| drv := drv k; changed := changed k; timer := timer k;
                   work_rest := rest; irq_rest := irq_rest k |} Battery)
      as (_ & Hw' & Hi').
    cbn [work_rest irq_rest] in Hw', Hi'.
    unfold polling_alive. rewrite exec_stmt_delay, Hw', Hi'.
    cbn [drv]. split; [exact Hdelay | split; [| exact Hirq]].
    destruct Hwork as [[_ Hnil] | [Hnone Hrest]]; [discriminate Hnil |].
    unfold max17048_work in Hrest.
    destruct Hrest as [Hrest | [Hrest | Hrest]];
      injection Hrest as -> ->.
    + right. rewrite exec_stmt_timer by discriminate. cbn [timer].
      split; [exact Hnone | right; left; reflexivity].
    + right. rewrite exec_stmt_timer by discriminate. cbn [timer].
      split; [exact Hnone | right; right; reflexivity].
    + left. cbn [exec_stmt timer drv]. rewrite Hnone, Hdelay.
      split; reflexivity.
  - destruct (irq_rest k) as [| s rest] eqn:Hi; [discriminate |].
    injection Hstep as <-.
    destruct (exec_stmt_changed s
                {| drv := drv k; changed := changed k; timer := timer k;
                   work_rest := work_rest k; irq_rest := rest |} Battery)
      as (_ & Hw' & Hi').
    cbn [work_rest irq_rest] in Hw', Hi'.
    assert (s <> Schedule_delayed_work) as Hs.
    { intros ->. apply Hirq. left. reflexivity. }
    unfold polling_alive.
    rewrite exec_stmt_delay, Hw', Hi', (exec_stmt_timer s _ Hs).
    cbn [drv timer].
    split; [exact Hdelay | split; [exact Hwork |]].
    intros Hin. apply Hirq. right. exact Hin.
Qed.

Lemma run_polling_alive d schedule :
  forall k k',
    polling_alive d k -> run schedule k = Some k' -> polling_alive d k'.
Proof.
  induction schedule as [| a schedule IH]; intros k k' Halive Hrun.
  - cbn [run] in Hrun. injection Hrun as <-. exact Halive.
  - cbn [run] in Hrun.
    destruct (step a k) as [k1 |] eqn:Hstep; [| discriminate].
    apply (IH k1 k'); [| exact Hrun].
    apply (step_polling_alive d a k k1); assumption.
Qed.

Lemma after_probe_polling_alive d : polling_alive d (after_probe d).
Proof.
  unfold polling_alive, after_probe. cbn [drv timer work_rest irq_rest In].
  split; [reflexivity | split; [| tauto]].
  left. split; reflexivity.
Qed.

Lemma probe_delay msecs_to_jiffies client map :
  delay (max17048_probe msecs_to_jiffies client map)
  = (if nonzero (irq client)
     then msecs_to_jiffies 300000 else msecs_to_jiffies 30000).
Proof.
  unfold max17048_probe, device_property_read_u32.
  destruct (fwnode (dev client) "charge-full-design-microamp-hours");
    destruct (fwnode (dev client) "battery-capacity");
    destruct (fwnode (dev client) "energy-full-design-microwatt-hours");
    reflexivity.
Qed.

(** X18: the polling never stalls and never doubles.  After any schedule
    of ticks, alerts and handler steps that follows [max17048_probe], the
    polling delay is still the one chosen at probe time (300000 ms with an
    interrupt line, 30000 ms without); when no work pass is in flight the
    delayed work is armed with that delay, so the next tick can fire; and
    while a pass is in flight no tick can start a second one. *)
Theorem polling_stays_alive msecs_to_jiffies client map schedule k :
  run schedule (after_probe (max17048_probe msecs_to_jiffies client map))
  = Some k ->
  delay (drv k)
  = (if nonzero (irq client)
     then msecs_to_jiffies 300000 else msecs_to_jiffies 30000)
  /\ (work_in_flight k = false ->
      timer k = Some (delay (drv k))
      /\ exists k', step Tick k = Some k' /\ work_rest k' = max17048_work)
  /\ (work_in_flight k = true -> step Tick k = None).
Proof.
  intros Hrun.
  pose proof (run_polling_alive _ schedule _ _
                (after_probe_polling_alive
                   (max17048_probe msecs_to_jiffies client map)) Hrun)
    as (Hdelay & Hwork & _).
  split; [rewrite Hdelay; apply probe_delay | split].
  - unfold work_in_flight. intros Hidle.
    destruct Hwork as [[Htimer Hnil] | [_ Hrest]].
    + rewrite Hdelay. split; [exact Htimer |].
      cbn [step]. rewrite Htimer, Hnil. eexists. split; reflexivity.
    + destruct Hrest as [Hrest | [Hrest | Hrest]];
        rewrite Hrest in Hidle; discriminate Hidle.
  - unfold work_in_flight. intros Hflight.
    destruct Hwork as [[_ Hnil] | [Hnone _]].
    + rewrite Hnil in Hflight. discriminate Hflight.
    + cbn [step]. rewrite Hnone. reflexivity.
Qed.

(** With an interrupt line and 250 ticks per second, the delay is 75000
    ticks after two full passes and an alert, and a pass that has started
    blocks a further tick. *)
Lemma polling_stays_alive_witness :
  let k0 :=
    after_probe
      (max17048_probe Scenario.jiffies_250
         (Scenario.client_with_irq (Fixture.node None None None))
         (Scenario.fresh_map
            (Fixture.steady (IoOk 0) (IoOk 12800) (IoOk 0)))) in
  exists k,
    run [Tick; Work_step; Work_step; Work_step;
         Alert; Irq_step; Irq_step; Irq_step;
         Tick; Work_step] k0 = Some k
    /\ delay (drv k) = 75000
    /\ step Tick k = None.
Proof.
  intros k0. eexists. split; [vm_compute; reflexivity |].
  match goal with
  | |- delay (drv ?K) = _ /\ _ =>
      destruct (polling_stays_alive Scenario.jiffies_250
                  (Scenario.client_with_irq (Fixture.node None None None))
                  (Scenario.fresh_map
                     (Fixture.steady (IoOk 0) (IoOk 12800) (IoOk 0)))
                  [Tick; Work_step; Work_step; Work_step;
                   Alert; Irq_step; Irq_step; Irq_step;
                   Tick; Work_step] K)
        as (Hdelay & _ & Hflight)
  end.
  - vm_compute. reflexivity.
  - split; [rewrite Hdelay; reflexivity | apply Hflight; reflexivity].
Defined.

Lemma same_config_refl b : same_config b b.
Proof. unfold same_config. repeat split. Qed.

Lemma same_config_trans a b c :
  same_config a b -> same_config b c -> same_config a c.
Proof.
  unfold same_config. intros (H1 & H2 & H3 & H4) (H5 & H6 & H7 & H8).
  repeat split; congruence.
Qed.

Lemma exec_stmt_reads s k :
  reads (regmap (drv (exec_stmt s k)))
  = (reads (regmap (drv k)) + owed_reads [s])%nat
  /\ same_config (drv (exec_stmt s k)) (drv k).
Proof.
  destruct s as [reg | psy |]; cbn [exec_stmt drv owed_reads].
  - unfold max17048_read_reg, regmap_read, same_config.
    destruct (chip (regmap (drv k)) (reads (regmap (drv k))) reg);
      cbn [snd set_regmap regmap reads chip charge_full_design_uah
             energy_full_design_uwh delay];
      repeat split; lia.
  - split; [lia | apply same_config_refl].
  - split; [lia | apply same_config_refl].
Qed.

Lemma owed_reads_cons s rest :
  owed_reads (s :: rest) = (owed_reads [s] + owed_reads rest)%nat.
Proof. destruct s; reflexivity. Qed.

Lemma step_reads a k k' :
  step a k = Some k' ->
  (reads (regmap (drv k')) + owed_reads (work_rest k')
   + owed_reads (irq_rest k')
   = reads (regmap (drv k)) + owed_reads (work_rest k)
     + owed_reads (irq_rest k) + alerts [a])%nat
  /\ same_config (drv k') (drv k).
Proof.
  destruct a; cbn [step alerts].
  - destruct (timer k); [| discriminate].
    destruct (work_rest k) eqn:Hw; [| discriminate].
    intros [= <-]. cbn [drv work_rest irq_rest max17048_work owed_reads].
    split; [lia | apply same_config_refl].
  - destruct (irq_rest k) eqn:Hi; [| discriminate].
    intros [= <-].
    cbn [drv work_rest irq_rest max17048_irq_handler owed_reads].
    split; [lia | apply same_config_refl].
  - destruct (work_rest k) as [| s rest] eqn:Hw; [discriminate |].
    intros [= <-].
    destruct (exec_stmt_changed s
                {| drv := drv k; changed := changed k; timer := timer k;
                   work_rest := rest; irq_rest := irq_rest k |} Battery)
      as (_ & -> & ->).
    destruct (exec_stmt_reads s
                {| drv := drv k; changed := changed k; timer := timer k;
                   work_rest := rest; irq_rest := irq_rest k |})
      as (-> & Hsame).
    cbn [drv work_rest irq_rest] in *.
    rewrite (owed_reads_cons s rest). split; [lia | exact Hsame].
  - destruct (irq_rest k) as [| s rest] eqn:Hi; [discriminate |].
    intros [= <-].
    destruct (exec_stmt_changed s
                {| drv := drv k; changed := changed k; timer := timer k;
                   work_rest := work_rest k; irq_rest := rest |} Battery)
      as (_ & -> & ->).
    destruct (exec_stmt_reads s
                {| drv := drv k; changed := changed k; timer := timer k;
                   work_rest := work_rest k; irq_rest := rest |})
      as (-> & Hsame).
    cbn [drv work_rest irq_rest] in *.
    rewrite (owed_reads_cons s rest). split; [lia | exact Hsame].
Qed.

Lemma alerts_cons a schedule :
  alerts (a :: schedule) = (alerts [a] + alerts schedule)%nat.
Proof. destruct a; reflexivity. Qed.

Lemma run_reads schedule :
  forall k k',
    run schedule k = Some k' ->
    (reads (regmap (drv k')) + owed_reads (work_rest k')
     + owed_reads (irq_rest k')
     = reads (regmap (drv k)) + owed_reads (work_rest k)
       + owed_reads (irq_rest k) + alerts schedule)%nat
    /\ same_config (drv k') (drv k).
Proof.
  induction schedule as [| a schedule IH]; intros k k' Hrun.
  - cbn [run] in Hrun. injection Hrun as <-. cbn [alerts].
    split; [lia | apply same_config_refl].
  - cbn [run] in Hrun.
    destruct (step a k) as [k1 |] eqn:Hstep; [| discriminate].
    destruct (IH _ _ Hrun) as [Hcount Hsame].
    destruct (step_reads _ _ _ Hstep) as [Hcount1 Hsame1].
    rewrite (alerts_cons a schedule).
    split; [lia | exact (same_config_trans _ _ _ Hsame Hsame1)].
Qed.

(** X19: over any schedule that starts and ends with nothing in flight,
    the handlers read exactly one register per alert and none per tick,
    and leave the design capacity, the design energy, the polling delay
    and the chip as they were. *)
Theorem one_register_read_per_alert schedule k k' :
  idle k = true ->
  run schedule k = Some k' ->
  idle k' = true ->
  reads (regmap (drv k')) = (reads (regmap (drv k)) + alerts schedule)%nat
  /\ same_config (drv k') (drv k).
Proof.
  intros Hidle Hrun Hidle'.
  destruct (run_reads schedule k k' Hrun) as [Hcount Hsame].
  destruct (idle_rests _ Hidle) as [Hw Hi].
  destruct (idle_rests _ Hidle') as [Hw' Hi'].
  rewrite Hw, Hi, Hw', Hi' in Hcount. cbn [owed_reads] in Hcount.
  split; [lia | exact Hsame].
Qed.

(** Two ticks and two alerts: two register reads. *)
Lemma one_register_read_per_alert_witness :
  let k0 :=
    after_probe
      (Fixture.battery_on (Fixture.steady (IoOk 0) (IoOk 12800) (IoOk 0))) in
  exists k',
    run [Tick; Work_step;
         Alert; Irq_step; Irq_step; Irq_step;
         Work_step; Work_step;
         Alert; Irq_step; Tick; Irq_step; Work_step; Irq_step;
         Work_step; Work_step] k0 = Some k'
    /\ reads (regmap (drv k')) = 2%nat.
Proof.
  intros k0. eexists. split; [vm_compute; reflexivity |].
  match goal with
  | |- reads (regmap (drv ?K)) = _ =>
      destruct (one_register_read_per_alert
                  [Tick; Work_step;
                   Alert; Irq_step; Irq_step; Irq_step;
                   Work_step; Work_step;
                   Alert; Irq_step; Tick; Irq_step; Work_step; Irq_step;
                   Work_step; Work_step] k0 K)
        as (Hreads & _)
  end.
  - reflexivity.
  - vm_compute. reflexivity.
  - reflexivity.
  - rewrite Hreads. reflexivity.
Defined.

(** X20: the time to empty is monotone: at one C-rate a higher state of
    charge never gives a shorter time, and at one state of charge a
    faster discharge never gives a longer time. *)
Theorem time_to_empty_monotone ENODATA b1 b2 val raw1 raw2 soc1 soc2 :
  answer b1 0 MAX17048_CRATE_REG = IoOk raw1 ->
  answer b2 0 MAX17048_CRATE_REG = IoOk raw2 ->
  answer b1 1 MAX17048_SOC_REG = IoOk soc1 ->
  answer b2 1 MAX17048_SOC_REG = IoOk soc2 ->
  0 <= soc1 -> soc1 <= soc2 -> soc2 < 65536 ->
  to_s16 raw1 <= to_s16 raw2 -> to_s16 raw2 < -10 ->
  exists t1 t2,
    fst (max17048_get_time_to_empty ENODATA val b1) = (0, t1)
    /\ fst (max17048_get_time_to_empty ENODATA val b2) = (0, t2)
    /\ t1 <= t2.
Proof.
  intros Hc1 Hc2 Hs1 Hs2 Hlo Hle Hhi Hrate Hdis.
  rewrite (time_to_empty_value ENODATA b1 val raw1 soc1 Hc1) by (auto; lia).
  rewrite (time_to_empty_value ENODATA b2 val raw2 soc2 Hc2) by (auto; lia).
  cbn [fst]. eexists. eexists. split; [reflexivity | split; [reflexivity |]].
  pose proof (to_s16_range raw1) as Hr1.
  pose proof (soc_percent_range soc1 ltac:(lia)) as Hp1.
  pose proof (soc_percent_range soc2 ltac:(lia)) as Hp2.
  assert (Z.min (soc1 / 256) 100 <= Z.min (soc2 / 256) 100) as Hpct.
  { assert (soc1 / 256 <= soc2 / 256) by (apply Z.div_le_mono; lia). lia. }
  transitivity (225000 * Z.min (soc1 / 256) 100 * 8
                / (Z.abs (to_s16 raw2) * 13)).
  - apply Z.div_le_compat_l; lia.
  - apply Z.div_le_mono; lia.
Qed.

(** 50 % at 30 LSB against 60 % at 20 LSB. *)
Lemma time_to_empty_monotone_witness :
  exists t1 t2,
    fst (max17048_get_time_to_empty 61 0
           (Fixture.battery_on
              (Fixture.steady (IoOk 0) (IoOk 12800) (IoOk 65506))))
    = (0, t1)
    /\ fst (max17048_get_time_to_empty 61 0
              (Fixture.battery_on
                 (Fixture.steady (IoOk 0) (IoOk 15360) (IoOk 65516))))
       = (0, t2)
    /\ t1 <= t2.
Proof.
  apply (time_to_empty_monotone 61
           (Fixture.battery_on
              (Fixture.steady (IoOk 0) (IoOk 12800) (IoOk 65506)))
           (Fixture.battery_on
              (Fixture.steady (IoOk 0) (IoOk 15360) (IoOk 65516)))
           0 65506 65516 12800 15360);
    try reflexivity; try lia; vm_compute; discriminate.
Defined.
